(** * A shallow embedding of function-action-oidc (deploy orchestration)

    The Python modules modelled here are [utils.py], [function.py],
    [function_file.py], [orchestrator.py], [access.py], [config.py] and
    [configs.py].  Remote calls of the Cognite SDK go through an explicit
    store threaded by a state-and-error monad; Python exceptions are the
    constructors of [exn]. *)

From stdpp Require Import base gmap strings list pretty.
From Stdlib Require Import String Ascii ZArith Bool.

Open Scope string_scope.
Open Scope Z_scope.

(* ------------------------------------------------------------------ *)
(** ** String helpers (Python [str] methods) *)

Module Str.

(** [s.replace(old, new)] for single-character [old] and [new]. *)
Fixpoint replace_char (old new : ascii) (s : string) : string :=
  match s with
  | EmptyString => EmptyString
  | String c rest =>
      String (if Ascii.eqb c old then new else c) (replace_char old new rest)
  end.

Fixpoint prefixb (p s : string) : bool :=
  match p, s with
  | EmptyString, _ => true
  | String c p', String d s' => Ascii.eqb c d && prefixb p' s'
  | String _ _, EmptyString => false
  end.

(** Python's [sub in s]. *)
Fixpoint contains (sub s : string) : bool :=
  prefixb sub s ||
  match s with
  | EmptyString => false
  | String _ rest => contains sub rest
  end.

(** ASCII part of Python's [str.upper()]. *)
Fixpoint upper (s : string) : string :=
  match s with
  | EmptyString => EmptyString
  | String c rest =>
      let n := nat_of_ascii c in
      String (if ((97 <=? n) && (n <=? 122))%nat then ascii_of_nat (n - 32) else c)
             (upper rest)
  end.

(** Python's [str.isspace] (what [str.strip()] removes) on the code points
    0-255 a character stands for: tab to carriage return, the separators
    0x1c-0x1f, space, 0x85 and 0xa0. *)
Definition is_space (c : ascii) : bool :=
  match nat_of_ascii c with
  | 9 | 10 | 11 | 12 | 13 | 28 | 29 | 30 | 31 | 32 | 133 | 160 => true
  | _ => false
  end%nat.

Fixpoint lstrip (s : string) : string :=
  match s with
  | String c rest => if is_space c then lstrip rest else s
  | EmptyString => EmptyString
  end.

Fixpoint rstrip (s : string) : string :=
  match s with
  | String c rest =>
      let r := rstrip rest in
      if String.eqb r "" && is_space c then EmptyString else String c r
  | EmptyString => EmptyString
  end.

Definition strip (s : string) : string := rstrip (lstrip s).

End Str.

(* ------------------------------------------------------------------ *)
(** ** [utils.create_zipfile_name] and [function.get_file_name] *)

(** [function_name.replace("/", "-") + ".zip"] *)
Definition create_zipfile_name (function_name : string) : string :=
  Str.replace_char "/" "-" function_name ++ ".zip".

(** [function.get_file_name] has the same body. *)
Definition get_file_name (function_name : string) : string :=
  Str.replace_char "/" "-" function_name ++ ".zip".

(* ------------------------------------------------------------------ *)
(** ** [utils.FnFileString]:
    [constr(min_length=1, strip_whitespace=True, regex=r"^[\w\- ]+\.(py|js)$")]

    Pydantic (v1) first strips the value, then checks [min_length], then
    runs [regex.match].  After stripping there is no trailing newline, so
    [$] only matches at the very end. *)
Module FnFile.

(** [\w] of a [str] pattern (Unicode-aware: [_] and the characters for
    which [str.isalnum()] holds) on the code points 0-255 a character
    stands for: ASCII digits and letters, [_], and the Latin-1 letters,
    digits and numerals 0xaa, 0xb2, 0xb3, 0xb5, 0xb9, 0xba, 0xbc-0xbe,
    0xc0-0xd6, 0xd8-0xf6 and 0xf8-0xff. *)
Definition is_word_char (c : ascii) : bool :=
  let n := nat_of_ascii c in
  (((48 <=? n) && (n <=? 57)) || ((65 <=? n) && (n <=? 90)) ||
  ((97 <=? n) && (n <=? 122)) || (n =? 95) ||
  (n =? 170) || (n =? 178) || (n =? 179) || (n =? 181) || (n =? 185) || (n =? 186) ||
  ((188 <=? n) && (n <=? 190)) || ((192 <=? n) && (n <=? 214)) ||
  ((216 <=? n) && (n <=? 246)) || ((248 <=? n) && (n <=? 255)))%nat.

(** the character class [[\w\- ]] *)
Definition in_class (c : ascii) : bool :=
  is_word_char c || Ascii.eqb c "-" || Ascii.eqb c " ".

(** the alternative [(py|js)] followed by [$] *)
Definition ext_ok (s : string) : bool :=
  String.eqb s "py" || String.eqb s "js".

(** [[\w\- ]+\.(py|js)$]: the dot is outside the class, so the class run
    ends exactly at the first character outside it. *)
Fixpoint match_body (seen_one : bool) (s : string) : bool :=
  match s with
  | EmptyString => false
  | String c rest =>
      if in_class c then match_body true rest
      else if Ascii.eqb c "." then seen_one && ext_ok rest
      else false
  end.

Definition regex_match (s : string) : bool := match_body false s.

(** The whole constrained-string validation: [true] iff accepted. *)
Definition validate (raw : string) : bool :=
  let s := Str.strip raw in
  negb (String.eqb s "") && regex_match s.

End FnFile.

(* ------------------------------------------------------------------ *)
(** ** Exceptions, log and the remote service *)

(** Python exceptions raised or caught by the modelled code.
    [LoopFuelExhausted] is not a Python exception: it marks the (never
    reached, see the lemmas below) end of the fuel of a polling loop. *)
Inductive exn :=
| CogniteAPIError (msg : string)
| FunctionDeployError (msg : string)
| FunctionDeployTimeout (msg : string)
| MissingAclError (cred_type : string) (missing : list string)
| ValueError (msg : string)
| OSError (msg : string)
| YAMLError (msg : string)
| ValidationError (msg : string)
| TypeError (msg : string)
| AttributeError (msg : string)
| LoopFuelExhausted.

Inductive level := INFO | WARNING | ERROR.

Inductive result (A : Type) := Ok (a : A) | Err (e : exn).
Arguments Ok {A} a.
Arguments Err {A} e.

(** [cognite.client.data_classes.FileMetadata], the fields used *)
Record FileMeta := { fm_id : Z; fm_data_set_id : option Z }.

(** [cognite.experimental.data_classes.Function], the fields used *)
Record Function := {
  fn_external_id : string;
  fn_id : Z;
  fn_status : string;
  fn_error : string * string  (* error['message'], error['trace'] *)
}.

(** The remote service, as far as the SDK calls used here see it.  The
    status of a function under deployment evolves on the service side:
    [r_status xid t] is what a read at time [t] returns.  Deletes refused
    by the service (missing rights) are fixed by the two [denied] sets. *)
Record Remote := {
  r_functions : gmap string Z;
  r_status : string -> Z -> string;
  r_error : string -> string * string;
  r_files : gmap string FileMeta;
  r_fn_delete_denied : gset string;
  r_file_delete_denied : gset string
}.

(** SDK calls issued, most recent first. *)
Inductive call :=
| CRetrieveFn (xid : string)
| CDeleteFn (xid : string)
| CUpdateFn (xid : string)
| CRetrieveFile (xid : string)
| CDeleteFile (xid : string)
| CSleep (secs : Z).

Record St := {
  remote : Remote;
  clock : Z;
  log : list (level * string);
  calls : list call
}.

Definition set_remote (r : Remote) (s : St) : St :=
  {| remote := r; clock := clock s; log := log s; calls := calls s |}.
Definition add_log (e : level * string) (s : St) : St :=
  {| remote := remote s; clock := clock s; log := e :: log s; calls := calls s |}.
Definition add_call (c : call) (s : St) : St :=
  {| remote := remote s; clock := clock s; log := log s; calls := c :: calls s |}.
Definition advance (d : Z) (s : St) : St :=
  {| remote := remote s; clock := clock s + d; log := log s; calls := calls s |}.

Definition with_functions (m : gmap string Z) (r : Remote) : Remote :=
  {| r_functions := m; r_status := r_status r; r_error := r_error r;
     r_files := r_files r; r_fn_delete_denied := r_fn_delete_denied r;
     r_file_delete_denied := r_file_delete_denied r |}.
Definition with_files (m : gmap string FileMeta) (r : Remote) : Remote :=
  {| r_functions := r_functions r; r_status := r_status r; r_error := r_error r;
     r_files := m; r_fn_delete_denied := r_fn_delete_denied r;
     r_file_delete_denied := r_file_delete_denied r |}.

(** *** The state-and-error monad *)

Definition M (A : Type) : Type := St -> result A * St.

Global Instance M_ret : MRet M := fun A a s => (Ok a, s).
Global Instance M_bind : MBind M := fun A B f m s =>
  match m s with
  | (Ok a, s') => f a s'
  | (Err e, s') => (Err e, s')
  end.

Definition raise {A} (e : exn) : M A := fun s => (Err e, s).

(** [try: m except: h] *)
Definition try_except {A} (m : M A) (h : exn -> M A) : M A := fun s =>
  match m s with
  | (Ok a, s') => (Ok a, s')
  | (Err e, s') => h e s'
  end.

Definition logger (lvl : level) (msg : string) : M unit :=
  fun s => (Ok tt, add_log (lvl, msg) s).

(** [time.time()] *)
Definition time_time : M Z := fun s => (Ok (clock s), s).

(** [time.sleep(d)]: a negative length raises [ValueError] *)
Definition time_sleep (d : Z) : M unit :=
  fun s => if d <? 0 then (Err (ValueError "sleep length must be non-negative"), s)
           else (Ok tt, advance d (add_call (CSleep d) s)).

Definition read_function (r : Remote) (t : Z) (xid : string) (id : Z) : Function :=
  {| fn_external_id := xid; fn_id := id; fn_status := r_status r xid t;
     fn_error := r_error r xid |}.

(** [client.functions.retrieve(external_id=xid)] *)
Definition functions_retrieve (xid : string) : M (option Function) := fun s =>
  let s := add_call (CRetrieveFn xid) s in
  (Ok (read_function (remote s) (clock s) xid <$> r_functions (remote s) !! xid), s).

(** [client.functions.delete(external_id=xid)] *)
Definition functions_delete (xid : string) : M unit := fun s =>
  let s := add_call (CDeleteFn xid) s in
  let r := remote s in
  if decide (xid ∈ r_fn_delete_denied r) then (Err (CogniteAPIError "403"), s)
  else match r_functions r !! xid with
       | None => (Err (CogniteAPIError "Not found"), s)
       | Some _ => (Ok tt, set_remote (with_functions (delete xid (r_functions r)) r) s)
       end.

(** [function.update()]: re-read the remote status *)
Definition function_update (f : Function) : M Function := fun s =>
  let s := add_call (CUpdateFn (fn_external_id f)) s in
  (Ok (read_function (remote s) (clock s) (fn_external_id f) (fn_id f)), s).

(** [client.files.retrieve(external_id=xid)] *)
Definition files_retrieve (xid : string) : M (option FileMeta) := fun s =>
  let s := add_call (CRetrieveFile xid) s in
  (Ok (r_files (remote s) !! xid), s).

(** [client.files.delete(external_id=xid)] *)
Definition files_delete (xid : string) : M unit := fun s =>
  let s := add_call (CDeleteFile xid) s in
  let r := remote s in
  if decide (xid ∈ r_file_delete_denied r) then (Err (CogniteAPIError "403"), s)
  else match r_files r !! xid with
       | None => (Err (CogniteAPIError "Not found"), s)
       | Some _ => (Ok tt, set_remote (with_files (delete xid (r_files r)) r) s)
       end.

(* ------------------------------------------------------------------ *)
(** ** [function.py]: [await_function_deployment] *)

Module FunctionStatus.
Definition FAILED := "Failed".
Definition READY := "Ready".
End FunctionStatus.

(** The [while time.time() <= t0 + wait_time_sec] loop.  Each iteration
    sleeps 5 s; SDK calls are modelled as taking no time.  [fuel] bounds
    the iterations (see [await_fuel]); running out is [LoopFuelExhausted].
    The messages keep the source's text; [precisedelta] and the function
    id inside them are left out. *)
Fixpoint await_loop (fuel : nat) (external_id : string) (wait_time_sec t0 : Z)
    (function : Function) : M Function :=
  t ← time_time;
  if t <=? t0 + wait_time_sec then
    if String.eqb (fn_status function) FunctionStatus.READY then
      logger INFO "Function deployment successful!";;
      mret function
    else if String.eqb (fn_status function) FunctionStatus.FAILED then
      let err_msg := "Error message: " ++ fst (fn_error function) ++
                     "." ++ String "010" ("Trace: " ++ snd (fn_error function)) in
      logger WARNING ("Deployment failed! " ++ err_msg);;
      raise (FunctionDeployError err_msg)
    else
      match fuel with
      | O => raise LoopFuelExhausted
      | S fuel' =>
          time_sleep 5;;
          function ← function_update function;
          await_loop fuel' external_id wait_time_sec t0 function
      end
  else
    let err := "Function " ++ external_id ++ " did not deploy within the time budget." in
    logger ERROR err;;
    raise (FunctionDeployTimeout err).

(** Iterations with [time <= t0 + wait_time_sec] are at most
    [wait_time_sec / 5 + 1]. *)
Definition await_fuel (wait_time_sec : Z) : nat := S (Z.to_nat (wait_time_sec / 5)).

Definition await_function_deployment (external_id : string) (wait_time_sec : Z)
    : M Function :=
  fo ← functions_retrieve external_id;
  match fo with
  | None =>
      let err := "No function with external_id='" ++ external_id ++ "' exists!" in
      logger WARNING err;;
      raise (FunctionDeployError err)
  | Some function =>
      t0 ← time_time;
      await_loop (await_fuel wait_time_sec) external_id wait_time_sec t0 function
  end.

(* ------------------------------------------------------------------ *)
(** ** Deletion: [function.delete_function],
    [function_file.delete_function_file] and
    [orchestrator.remove_function_with_file] *)

Definition delete_function (external_id : string) : M unit :=
  fo ← functions_retrieve external_id;
  match fo with
  | Some _ =>
      logger INFO ("Found existing function '" ++ external_id ++ "'. Deleting...");;
      functions_delete external_id;;
      logger INFO ("- Delete of function '" ++ external_id ++ "' successful!")
  | None =>
      logger INFO ("Unable to delete function! External ID: '" ++ external_id ++ "' NOT found!")
  end.

Definition delete_function_file (xid : string) : M unit :=
  fm ← files_retrieve xid;
  match fm with
  | None =>
      logger INFO ("Unable to delete file! External ID: '" ++ xid ++ "' NOT found!")
  | Some file_meta =>
      logger INFO ("Deleting existing file '" ++ xid ++ "'");;
      try_except
        (files_delete xid;;
         logger INFO ("- Delete of file '" ++ xid ++ "' successful!"))
        (fun e =>
           match e with
           | CogniteAPIError _ =>
               match fm_data_set_id file_meta with
               | None => raise e  (* not protected by a dataset: re-raise *)
               | Some _ =>
                   logger ERROR ("Unable to delete file! It is governed by data set. " ++
                                 "Trying to ignore and continue as this workflow will " ++
                                 "overwrite the file later.")
               end
           | _ => raise e
           end)
  end.

Definition remove_function_with_file (fn_xid : string) : M unit :=
  delete_function fn_xid;;
  delete_function_file (create_zipfile_name fn_xid);;
  time_sleep 3.

(* ------------------------------------------------------------------ *)
(** ** [utils._retry] and the loop of the PyPI [retry] package

    [utils._retry] copies the loop of the PyPI [retry] package
    ([retry.api.__retry_internal]) and changes only what is logged.
    [utils._retry] logs only when given a [logger] ([UtilsLogger];
    [NoLogger] without one): an error line on each retried failure, then
    a warning before each sleep.  The PyPI loop has a default logger
    (the package's [logging.getLogger]) and logs only the warning before
    each sleep ([PyPILogger]); its text starts with the exception, left
    out here. *)

Inductive retry_logging := NoLogger | UtilsLogger | PyPILogger.

(** [if logger is not None: logger.error(...)], in [utils._retry] only *)
Definition retry_error_log (logging : retry_logging) : M unit :=
  match logging with
  | UtilsLogger =>
      logger ERROR ("Check out the troubleshoot guide: " ++
                    "https://docs.cognite.com/cdf/functions/known_issues")
  | _ => mret tt
  end.

(** the warning before each sleep *)
Definition retry_warning_log (logging : retry_logging) (delay : Z) : M unit :=
  match logging with
  | NoLogger => mret tt
  | UtilsLogger => logger WARNING ("Retrying in " ++ pretty delay ++ " seconds...")
  | PyPILogger => logger WARNING (", retrying in " ++ pretty delay ++ " seconds...")
  end.

Section Retry.
Context {A : Type}.

(** [while tries: try: return fn() except exceptions: ...].  The Python
    function returns [None] when [tries] is 0 on entry, hence
    [option A].  [fuel] bounds the iterations; [_retry] gives [tries] as
    fuel, enough for any positive [tries] (a negative [tries], "retry
    forever", is outside the model and ends in [LoopFuelExhausted]).
    Delays are whole seconds. *)
Fixpoint _retry_loop (fuel : nat) (fn : M A) (exceptions : exn -> bool)
    (tries delay : Z) (max_delay : option Z) (backoff jitter : Z)
    (logging : retry_logging) : M (option A) :=
  if tries =? 0 then mret None else
  match fuel with
  | O => raise LoopFuelExhausted
  | S fuel' =>
      try_except (a ← fn; mret (Some a))
        (fun e =>
           if exceptions e then
             let tries := tries - 1 in
             retry_error_log logging;;
             if tries =? 0 then raise e else
             retry_warning_log logging delay;;
             time_sleep delay;;
             let delay := delay * backoff + jitter in
             let delay := match max_delay with Some md => Z.min delay md | None => delay end in
             _retry_loop fuel' fn exceptions tries delay max_delay backoff jitter logging
           else raise e)
  end.

Definition _retry (fn : M A) (exceptions : exn -> bool) (tries delay : Z)
    (max_delay : option Z) (backoff jitter : Z) (logging : retry_logging) : M (option A) :=
  _retry_loop (Z.to_nat tries) fn exceptions tries delay max_delay backoff jitter logging.

End Retry.

(* ------------------------------------------------------------------ *)
(** ** [upload_and_create_function]

    The body of [function.upload_and_create_function]: the deletion step
    ([delete_single_cognite_function], [prepare] here) runs outside the
    [try]; the upload and the creation-and-wait step ([upload_and_create]
    here) run inside it, and a [CogniteAPIError] whose message contains
    "Function externalId duplicated" is turned into a
    [FunctionDeployError] with the same message.  Both steps are
    parameters: the claims are about every behaviour of the service. *)

Definition DUPLICATED_MSG := "Function externalId duplicated".

Definition upload_and_create_body (prepare : M unit) (upload_and_create : M Function)
    : M Function :=
  prepare;;
  try_except upload_and_create
    (fun e =>
       match e with
       | CogniteAPIError msg =>
           if Str.contains DUPLICATED_MSG msg then raise (FunctionDeployError msg)
           else raise e
       | _ => raise e
       end).

(** The body of [orchestrator.upload_and_create_function]:
    [remove_function_with_file] ([prepare]), then the upload, the creation
    and the optional wait ([upload_and_create]), with no [try]. *)
Definition orchestrator_upload_and_create_body (prepare : M unit)
    (upload_and_create : M Function) : M Function :=
  prepare;; upload_and_create.

(** The two retry decorators of the repository:
    [function.py]: [@retry(exceptions=(IOError, FunctionDeployTimeout,
    FunctionDeployError), tries=5, delay=2, jitter=2)];
    [orchestrator.py]: [@retry(exceptions=FunctionDeployError, tries=2,
    delay=5, backoff=2, logger=logger)].
    [CogniteAPIError] derives from [Exception], not from [IOError]. *)
Inductive retry_site := FunctionPy | OrchestratorPy.

Definition retried_exceptions (v : retry_site) (e : exn) : bool :=
  match v, e with
  | FunctionPy, (OSError _ | FunctionDeployTimeout _ | FunctionDeployError _) => true
  | OrchestratorPy, FunctionDeployError _ => true
  | _, _ => false
  end.

Definition retry_tries (v : retry_site) : Z :=
  match v with FunctionPy => 5 | OrchestratorPy => 2 end.
Definition retry_delay (v : retry_site) : Z :=
  match v with FunctionPy => 2 | OrchestratorPy => 5 end.
Definition retry_backoff (v : retry_site) : Z :=
  match v with FunctionPy => 1 | OrchestratorPy => 2 end.
Definition retry_jitter (v : retry_site) : Z :=
  match v with FunctionPy => 2 | OrchestratorPy => 0 end.
(** [function.py] decorates with the PyPI [retry] (default logger),
    [orchestrator.py] with [utils.retry] given its module [logger]. *)
Definition retry_logging_of (v : retry_site) : retry_logging :=
  match v with FunctionPy => PyPILogger | OrchestratorPy => UtilsLogger end.

(** The retry loop of a decorator site, from a given try count and delay. *)
Definition site_retry_loop (v : retry_site) (fuel : nat) (tries delay : Z)
    (body : M Function) : M (option Function) :=
  _retry_loop fuel body (retried_exceptions v) tries delay None
    (retry_backoff v) (retry_jitter v) (retry_logging_of v).

(** The decorated function, with the number of tries as a parameter
    ([retry_tries] gives the configured ones). *)
Definition site_body (v : retry_site) (prepare : M unit) (upload_and_create : M Function)
    : M Function :=
  match v with
  | FunctionPy => upload_and_create_body prepare upload_and_create
  | OrchestratorPy => orchestrator_upload_and_create_body prepare upload_and_create
  end.

Definition upload_and_create_function (v : retry_site) (tries : Z)
    (prepare : M unit) (upload_and_create : M Function) : M (option Function) :=
  _retry (site_body v prepare upload_and_create) (retried_exceptions v)
    tries (retry_delay v) None (retry_backoff v) (retry_jitter v) (retry_logging_of v).

(* ------------------------------------------------------------------ *)
(** ** [access.py]: the capability verifiers *)

Module Access.

(** [Capability(acl, actions, scope)]; the scope dict is an association
    list from its keys ("all", "datasetScope", "idScope", ...) to the
    [ids] list of that entry (empty for "all"). *)
Record Capability := {
  acl : string;
  actions : list string;
  scope : list (string * list Z)
}.

Definition scope_ids (key : string) (c : Capability) : list Z :=
  match find (fun kv => String.eqb kv.1 key) (scope c) with
  | Some kv => kv.2
  | None => []
  end.

Definition is_all_scope (c : Capability) : bool :=
  existsb (fun kv => String.eqb kv.1 "all") (scope c).
Definition is_dataset_scope (id : Z) (c : Capability) : bool :=
  existsb (Z.eqb id) (scope_ids "datasetScope" c).
Definition is_ids_scope (id : Z) (c : Capability) : bool :=
  existsb (Z.eqb id) (scope_ids "idScope" c).

Definition filter_capabilities (capabs : list Capability) (a : string) : list Capability :=
  List.filter (fun c => String.eqb (acl c) a) capabs.

(** A Python set of action names is a list; [set_in] is [in]. *)
Definition set_in (a : string) (s : list string) : bool := existsb (String.eqb a) s.

(** [required - actions]: Python iterates a set in an unspecified order;
    the model keeps the order of [required].  Statements below are about
    membership only. *)
Definition set_diff (required actions : list string) : list string :=
  List.filter (fun a => negb (set_in a actions)) required.

(** What the verifiers read from the service (all cached per run):
    [inspect_token] ([None]: the call fails with [CogniteAPIError];
    otherwise whether its [projects] and [capabilities] are non-empty),
    the capabilities of the user's groups ([None]: the list call fails)
    and the [write_protected] flag of each data set. *)
Record AccessClient := {
  ac_token : option (bool * bool);
  ac_groups : option (list Capability);
  ac_datasets : gmap Z bool
}.

Definition ACL_PROJECT_LIST := "projects:LIST (scope: 'all')".
Definition ACL_GROUPS_LIST := "groups:LIST (scope: 'all' OR 'currentuserscope')".
Definition MISSING_ACLS_WARNING :=
  "(There might be more missing, but need the above-mentioned first to check!)".

Definition missing_basic_capabilities (client : AccessClient) : list string :=
  match ac_token client with
  | None => [ACL_PROJECT_LIST; ACL_GROUPS_LIST; MISSING_ACLS_WARNING]
  | Some (has_projects, has_capabilities) =>
      if has_projects && has_capabilities then []
      else match ac_groups client with
           | Some _ => [ACL_PROJECT_LIST; MISSING_ACLS_WARNING]
           | None => [ACL_GROUPS_LIST; MISSING_ACLS_WARNING]
           end
  end.

Definition all_actions (capabs : list Capability) : list string :=
  flat_map actions capabs.

Definition function_item (m : string) : string :=
  "functionsAcl:" ++ m ++ " (scope: 'all')".
Definition SESSION_ITEM := "sessionsAcl:CREATE (scope: 'all')".
Definition files_item_no_ds (m : string) : string :=
  "filesAcl:" ++ m ++ " (scope: 'all') (Tip: consider using a data set!)".
Definition files_item_ds (ds_id : Z) (m : string) : string :=
  "filesAcl:" ++ m ++ " (scope: 'all' OR 'dataset: " ++ pretty ds_id ++ "')".

Definition missing_function_capabilities (capabs : list Capability)
    (required_actions : list string) : list string :=
  let actions := all_actions (filter_capabilities capabs "functionsAcl") in
  map function_item (set_diff required_actions actions).

Definition missing_session_capabilities (capabs : list Capability) : list string :=
  let actions := all_actions (filter_capabilities capabs "sessionsAcl") in
  if negb (set_in "CREATE" actions) then [SESSION_ITEM] else [].

(** [retrieve_dataset(client, id)]: [ValueError] when there is none *)
Definition retrieve_dataset_write_protected (client : AccessClient) (id : Z) : result bool :=
  match ac_datasets client !! id with
  | Some wp => Ok wp
  | None => Err (ValueError ("No dataset exists with ID: '" ++ pretty id ++ "'"))
  end.

Definition missing_files_capabilities (capabs : list Capability) (client : AccessClient)
    (ds_id : option Z) : result (list string) :=
  let files_capes := filter_capabilities capabs "filesAcl" in
  let files_actions_all_scope := all_actions (List.filter is_all_scope files_capes) in
  let missing_files_acl := set_diff ["READ"; "WRITE"] files_actions_all_scope in
  match ds_id with
  | None => Ok (map files_item_no_ds missing_files_acl)
  | Some ds =>
      let files_actions_dsid_scope := all_actions (List.filter (is_dataset_scope ds) files_capes) in
      let missing_acls :=
        map (files_item_ds ds) (set_diff missing_files_acl files_actions_dsid_scope) in
      let data_set_actions :=
        all_actions (List.filter (fun c => is_all_scope c || is_ids_scope ds c)
                            (filter_capabilities capabs "datasetsAcl")) in
      if negb (set_in "READ" data_set_actions) then
        Ok (app missing_acls
              (app ["datasetsAcl:READ (scope: 'all' OR 'id: " ++ pretty ds ++ "')"]
                   (if negb (set_in "OWNER" data_set_actions)
                    then ["(If dataset is write protected, you'll also need OWNER)"] else [])))
      else
        match retrieve_dataset_write_protected client ds with
        | Err e => Err e
        | Ok wp =>
            Ok (app missing_acls
                (if wp && negb (set_in "OWNER" data_set_actions)
                 then ["datasetsAcl:OWNER (scope: 'all' OR 'id: " ++ pretty ds ++
                       "'). NB: 'all scope' not recommended!"]
                 else []))
        end
  end.

(** [raise_on_missing]: the error carries the list; its message is
    [missing_acl_message]. *)
Definition raise_on_missing {A} (missing : list string) (cred_type : string) : result A :=
  Err (MissingAclError cred_type missing).

Fixpoint enumerate_items (i : nat) (items : list string) : string :=
  match items with
  | [] => ""
  | [x] => "- " ++ pretty i ++ ": " ++ x
  | x :: rest => "- " ++ pretty i ++ ": " ++ x ++ String "010" (enumerate_items (S i) rest)
  end.

(** [os.linesep] is a newline on the runners. *)
Definition missing_acl_message (cred_type : string) (missing : list string) : string :=
  Str.upper cred_type ++ " credentials missing one (or more) required capabilities:" ++
  String "010" (enumerate_items 1 missing).

Definition check_basics_and_retrieve_capabilities (client : AccessClient)
    (cred_name : string) : result (list Capability) :=
  match missing_basic_capabilities client with
  | [] =>
      match ac_groups client with
      | Some capabs => Ok capabs
      | None => Err (CogniteAPIError "groups:LIST failed")
      end
  | missing_basic => raise_on_missing missing_basic cred_name
  end.

Definition verify_schedule_creds_capabilities (client : AccessClient)
    (cred_name : string) : result unit :=
  match check_basics_and_retrieve_capabilities client cred_name with
  | Err e => Err e
  | Ok capabs =>
      let missing := app (missing_function_capabilities capabs ["WRITE"])
                         (missing_session_capabilities capabs) in
      if negb (bool_decide (missing = [])) then raise_on_missing missing cred_name
      else Ok tt
  end.

Definition verify_deploy_capabilites (client : AccessClient) (ds_id : option Z)
    (cred_name : string) : result unit :=
  match check_basics_and_retrieve_capabilities client cred_name with
  | Err e => Err e
  | Ok capabs =>
      match missing_files_capabilities capabs client ds_id with
      | Err e => Err e
      | Ok files_missing =>
          let missing := app (missing_function_capabilities capabs ["READ"; "WRITE"])
                             files_missing in
          if negb (bool_decide (missing = [])) then raise_on_missing missing cred_name
          else Ok tt
      end
  end.

End Access.

(* ------------------------------------------------------------------ *)
(** ** Schedule files: [config.py] and [configs.py] / [schedule.py] *)

Module Schedules.

#[local] Set Warnings "-register-all".

(** A value returned by [yaml.safe_load].  The keys of a [YMap] are
    distinct, as in the dict [safe_load] returns. *)
Inductive yaml :=
| YNull
| YBool (b : bool)
| YInt (z : Z)
| YStr (s : string)
| YList (l : list yaml)
| YMap (kvs : list (string * yaml)).

(** What [safe_load] makes of a file: a YAML error or a value. *)
Inductive yaml_doc := Malformed (why : string) | Doc (v : yaml).

(** Python truthiness of the loaded value ([if schedules := safe_load(f)]) *)
Definition truthy (y : yaml) : bool :=
  match y with
  | YNull => false
  | YBool b => b
  | YInt z => negb (z =? 0)
  | YStr s => negb (String.eqb s "")
  | YList l => negb (bool_decide (l = []))
  | YMap kvs => negb (bool_decide (kvs = []))
  end.

Fixpoint chars (s : string) : list yaml :=
  match s with
  | EmptyString => []
  | String c rest => YStr (String c EmptyString) :: chars rest
  end.

(** [iter(value)]: a list gives its items, a dict its keys, a string its
    characters; a number or bool raises [TypeError], which Pydantic turns
    into a [ValidationError]. *)
Definition py_iter (y : yaml) : result (list yaml) :=
  match y with
  | YList l => Ok l
  | YMap kvs => Ok (map (fun kv => YStr kv.1) kvs)
  | YStr s => Ok (chars s)
  | _ => Err (ValidationError "object is not iterable")
  end.

Definition get (k : string) (kvs : list (string * yaml)) : option yaml :=
  snd <$> find (fun kv => String.eqb kv.1 k) kvs.

Record FunctionSchedule := {
  fs_name : string;
  fs_description : option string;
  fs_cron_expression : string;
  fs_data : option (list (yaml * yaml))
}.

Definition result_bind {A B} (r : result A) (f : A -> result B) : result B :=
  match r with Ok a => f a | Err e => Err e end.

Fixpoint result_map {A B} (f : A -> result B) (l : list A) : result (list B) :=
  match l with
  | [] => Ok []
  | x :: xs => result_bind (f x) (fun y => result_bind (result_map f xs) (fun ys => Ok (y :: ys)))
  end.

(** Python's [==] on hashable loaded values, as dict keys compare them:
    [True == 1] and [False == 0]. *)
Definition key_num (y : yaml) : option Z :=
  match y with YInt z => Some z | YBool b => Some (if b then 1 else 0) | _ => None end.

Definition key_eqb (a b : yaml) : bool :=
  match key_num a, key_num b with
  | Some x, Some y => Z.eqb x y
  | _, _ =>
      match a, b with
      | YNull, YNull => true
      | YStr s, YStr t => String.eqb s t
      | _, _ => false
      end
  end.

Definition hashable (y : yaml) : bool :=
  match y with YList _ | YMap _ => false | _ => true end.

(** [d[k] = v]: an equal key already there keeps its place and its key
    object, and takes the new value. *)
Fixpoint dict_set (k v : yaml) (d : list (yaml * yaml)) : list (yaml * yaml) :=
  match d with
  | [] => [(k, v)]
  | (k', v') :: d' => if key_eqb k k' then (k', v) :: d' else (k', v') :: dict_set k v d'
  end.

(** An item of the iterable given to [dict()]: an iterable of exactly two
    elements. *)
Definition py_pair (y : yaml) : option (yaml * yaml) :=
  match py_iter y with Ok [k; v] => Some (k, v) | _ => None end.

Fixpoint dict_of_pairs (d : list (yaml * yaml)) (items : list yaml)
    : option (list (yaml * yaml)) :=
  match items with
  | [] => Some d
  | y :: rest =>
      match py_pair y with
      | Some (k, v) => if hashable k then dict_of_pairs (dict_set k v d) rest else None
      | None => None
      end
  end.

(** [dict(v)], which Pydantic v1 applies to a value that is not a dict
    (in [dict_validator] and in [parse_obj]): a dict is kept; an iterable
    of pairs with hashable keys builds a dict, a later key overwriting the
    value of an equal earlier one; anything else raises ([TypeError] or
    [ValueError]), here [None]. *)
Definition py_dict (y : yaml) : option (list (yaml * yaml)) :=
  match y with
  | YMap kvs => Some (map (fun kv => (YStr kv.1, kv.2)) kvs)
  | _ => match py_iter y with Ok items => dict_of_pairs [] items | Err _ => None end
  end.

Section Parse.
(** [CronSlices.is_valid] of the [python-crontab] package. *)
Variable cron_is_valid : string -> bool.

(** A [NonEmptyString] field ([constr(min_length=1, strip_whitespace=True)]).
    Pydantic v1's [str_validator] also accepts an [int] and converts it
    with [str()]; a [bool] is an [int] and gives "True" or "False". *)
Definition non_empty_string (y : yaml) : result string :=
  match y with
  | YStr s => let s := Str.strip s in
              if String.eqb s "" then Err (ValidationError "min_length") else Ok s
  | YInt z => Ok (pretty z)
  | YBool b => Ok (if b then "True" else "False")
  | _ => Err (ValidationError "str type expected")
  end.

Definition optional_field {A} (f : yaml -> result A) (y : option yaml) : result (option A) :=
  match y with
  | None | Some YNull => Ok None
  | Some v => result_bind (f v) (fun a => Ok (Some a))
  end.

(** A [Dict] field: [dict_validator] *)
Definition dict_field (y : yaml) : result (list (yaml * yaml)) :=
  match py_dict y with
  | Some d => Ok d
  | None => Err (ValidationError "value is not a valid dict")
  end.

(** [FunctionSchedule( **obj)]: fields [name], [description],
    [cron_expression] (alias [cron], validated by [validate_cron]; with
    [allow_population_by_field_name] the field name is read when the alias
    is absent) and [data]. *)
Definition parse_fields (kvs : list (string * yaml)) : result FunctionSchedule :=
  result_bind (match get "name" kvs with
               | Some v => non_empty_string v
               | None => Err (ValidationError "field required") end) (fun name =>
  result_bind (optional_field non_empty_string (get "description" kvs)) (fun descr =>
  result_bind (match get "cron" kvs with
               | Some v => non_empty_string v
               | None =>
                   match get "cron_expression" kvs with
                   | Some v => non_empty_string v
                   | None => Err (ValidationError "field required")
                   end
               end) (fun cron =>
  if negb (cron_is_valid cron)
  then Err (ValidationError ("Invalid cron expression: '" ++ cron ++ "'")) else
  result_bind (optional_field dict_field (get "data" kvs)) (fun data =>
  Ok {| fs_name := name; fs_description := descr;
        fs_cron_expression := cron; fs_data := data |})))).

(** [cls( **obj)] takes only string keys. *)
Fixpoint str_keys (d : list (yaml * yaml)) : option (list (string * yaml)) :=
  match d with
  | [] => Some []
  | (YStr k, v) :: d' => (fun r => (k, v) :: r) <$> str_keys d'
  | _ :: _ => None
  end.

(** [FunctionSchedule.parse_obj]: a value that is not a dict is first
    given to [dict()] (its failure is a [ValidationError]), then
    [cls( **obj)]. *)
Definition parse_obj (y : yaml) : result FunctionSchedule :=
  match y with
  | YMap kvs => parse_fields kvs
  | _ =>
      match py_dict y with
      | None => Err (ValidationError "value is not a valid dict")
      | Some d =>
          match str_keys d with
          | Some kvs => parse_fields kvs
          | None => Err (TypeError "keywords must be strings")
          end
      end
  end.

(** The files reachable by path; [function_folder / schedule_file] *)
Definition path_join (folder file : string) : string := folder ++ "/" ++ file.

(** [SchedulesConfig.verify_schedule_file_and_parse]: returns the new
    [(schedule_file, schedules)] values, or the exception that fails the
    validation, together with the warnings logged. *)
Definition verify_schedule_file_and_parse (fs : gmap string yaml_doc)
    (function_folder : string) (schedule_file : option string)
    : result (option string * list FunctionSchedule) * list string :=
  match schedule_file with
  | None => (Ok (None, []), [])
  | Some file =>
      let path := path_join function_folder file in
      match fs !! path with
      | Some (Malformed why) => (Err (YAMLError why), [])
      | Some (Doc v) =>
          if truthy v then
            (result_bind (py_iter v) (fun items =>
               result_bind (result_map parse_obj items) (fun schedules =>
                 Ok (Some file, schedules))), [])
          else (Ok (None, []),
                ["Given schedule file '" ++ file ++ "' appears empty and was ignored"])
      | None =>
          (Ok (None, []),
           ["Ignoring given schedule file '" ++ file ++ "', path does not exist: " ++ path])
      end
  end.

(** [config.ScheduleConfig] (the earlier configuration module): [name]
    and [cron] are required [NonEmptyString]s ([None] is refused), [cron]
    is checked by [valid_cron] with [CronSlices.is_valid], [data] is an
    [Optional[Dict]].  [YNull] stands for Python's [None]. *)
Record ScheduleConfig := {
  sc_name : string;
  sc_cron : string;
  sc_data : option (list (yaml * yaml))
}.

Definition ScheduleConfig_validate (name cron data : yaml) : result ScheduleConfig :=
  result_bind (match name with
               | YNull => Err (ValidationError "none is not an allowed value")
               | _ => non_empty_string name end) (fun name =>
  result_bind (match cron with
               | YNull => Err (ValidationError "none is not an allowed value")
               | _ => non_empty_string cron end) (fun cron =>
  if negb (cron_is_valid cron)
  then Err (ValidationError ("Invalid cron expression: '" ++ cron ++ "'")) else
  result_bind (optional_field dict_field (Some data)) (fun data =>
  Ok {| sc_name := name; sc_cron := cron; sc_data := data |}))).

Definition get_or (k : string) (d : yaml) (kvs : list (string * yaml)) : yaml :=
  match get k kvs with Some v => v | None => d end.

(** One item of [config.FunctionConfig.schedules]:
    [ScheduleConfig(cron=schedule.get("cron"),
    name=self.external_id + ":" + schedule.get("name", f"undefined-{i}"),
    data=schedule.get("data"))].  The arguments are evaluated in order:
    [schedule.get] on a value that is not a dict raises [AttributeError],
    concatenating a name that is not a string raises [TypeError]; then the
    model validates. *)
Definition config_schedule (external_id : string) (i : nat) (schedule : yaml)
    : result ScheduleConfig :=
  match schedule with
  | YMap kvs =>
      let cron := get_or "cron" YNull kvs in
      match get_or "name" (YStr ("undefined-" ++ pretty i)) kvs with
      | YStr n =>
          let data := get_or "data" YNull kvs in
          ScheduleConfig_validate (YStr (external_id ++ ":" ++ n)) cron data
      | _ => Err (TypeError "can only concatenate str")
      end
  | _ => Err (AttributeError "object has no attribute 'get'")
  end.

(** [[ScheduleConfig(...) for i, schedule in enumerate(all_schedules)]] *)
Fixpoint config_schedules_from (external_id : string) (i : nat) (items : list yaml)
    : result (list ScheduleConfig) :=
  match items with
  | [] => Ok []
  | s :: rest =>
      result_bind (config_schedule external_id i s) (fun c =>
        result_bind (config_schedules_from external_id (S i) rest) (fun cs => Ok (c :: cs)))
  end.

End Parse.

(** [schedule.deploy_schedules]: one
    [client.functions.schedules.create(function_id=fn.id, ..., **dict(s))]
    per schedule; the model keeps the [(function_id, name)] of each call. *)
Definition deploy_schedules (fn : Function) (schedules : list FunctionSchedule)
    : list (Z * string) :=
  map (fun s => (fn_id fn, fs_name s)) schedules.

End Schedules.

(* ------------------------------------------------------------------ *)
(** ** [utils.temporary_chdir] *)

Module Chdir.

(** The process state the context manager touches: the working directory
    and the directories that exist (paths are already resolved). *)
Record Proc := { cwd : string; dirs : gset string }.

Definition PM (A : Type) : Type := Proc -> result A * Proc.

(** [os.getcwd()] fails when the working directory has been removed. *)
Definition getcwd : PM string := fun p =>
  if decide (cwd p ∈ dirs p) then (Ok (cwd p), p)
  else (Err (OSError "FileNotFoundError"), p).

Definition chdir (path : string) : PM unit := fun p =>
  if decide (path ∈ dirs p) then (Ok tt, {| cwd := path; dirs := dirs p |})
  else (Err (OSError "FileNotFoundError"), p).

(** [old_path = os.getcwd(); os.chdir(path); try: yield finally:
    os.chdir(old_path)], with the [with] block as [body].  An exception
    of the [finally] clause replaces the one of the block. *)
Definition temporary_chdir {A} (path : string) (body : PM A) : PM A := fun p =>
  match getcwd p with
  | (Err e, p1) => (Err e, p1)
  | (Ok old_path, p1) =>
      match chdir path p1 with
      | (Err e, p2) => (Err e, p2)
      | (Ok _, p2) =>
          let '(r, p3) := body p2 in
          match chdir old_path p3 with
          | (Ok _, p4) => (r, p4)
          | (Err e, p4) => (Err e, p4)
          end
      end
  end.

End Chdir.

(* ------------------------------------------------------------------ *)
(** ** Sample inputs used by the concrete instances below *)

(** One function "fn" (id 7) still deploying, and its code file
    "fn.zip", governed by data set 42, whose delete the service refuses. *)
Definition sample_remote : Remote := {|
  r_functions := {["fn" := 7]};
  r_status := fun _ _ => "Deploying";
  r_error := fun _ => ("", "");
  r_files := {["fn.zip" := {| fm_id := 11; fm_data_set_id := Some 42 |}]};
  r_fn_delete_denied := ∅;
  r_file_delete_denied := {["fn.zip"]}
|}.

Definition sample_state : St := {|
  remote := sample_remote; clock := 0; log := []; calls := []
|}.

(** What an observer of a run sees: raised or not, and the remote
    functions and files afterwards. *)
Definition observable {A} (p : result A * St) :=
  (p.1, r_functions (remote p.2), r_files (remote p.2)).

(** The effect of the deletion steps on the remote service, as pure
    functions; [denotes m f] says that [m] raises or not, and leaves the
    service, exactly as [f] says. *)
Definition denotes {A} (m : M A) (f : Remote -> result A * Remote) : Prop :=
  forall s, (m s).1 = (f (remote s)).1 /\ remote (m s).2 = (f (remote s)).2.

Definition then_effect {A B} (f : Remote -> result A * Remote)
    (g : A -> Remote -> result B * Remote) (R : Remote) : result B * Remote :=
  match f R with
  | (Ok a, R') => g a R'
  | (Err e, R') => (Err e, R')
  end.

Definition fn_delete_effect (xid : string) (R : Remote) : result unit * Remote :=
  match r_functions R !! xid with
  | None => (Ok tt, R)
  | Some _ =>
      if decide (xid ∈ r_fn_delete_denied R) then (Err (CogniteAPIError "403"), R)
      else (Ok tt, with_functions (delete xid (r_functions R)) R)
  end.

Definition file_delete_effect (xid : string) (R : Remote) : result unit * Remote :=
  match r_files R !! xid with
  | None => (Ok tt, R)
  | Some meta =>
      if decide (xid ∈ r_file_delete_denied R) then
        (match fm_data_set_id meta with
         | None => Err (CogniteAPIError "403")
         | Some _ => Ok tt
         end, R)
      else (Ok tt, with_files (delete xid (r_files R)) R)
  end.

Definition remove_effect (xid : string) : Remote -> result unit * Remote :=
  then_effect (fn_delete_effect xid) (fun _ => file_delete_effect (create_zipfile_name xid)).

(** Errors the retry must let through: a missing capability, or a
    remote error other than the duplicated-external-id one. *)
Definition not_retry_worthy (e : exn) : Prop :=
  (exists cred missing, e = MissingAclError cred missing) \/
  (exists msg, e = CogniteAPIError msg /\ Str.contains DUPLICATED_MSG msg = false).

(** The error the body of [function.upload_and_create_function] raises
    for an error of its upload-and-create step. *)
Definition convert_create_error (e : exn) : exn :=
  match e with
  | CogniteAPIError msg =>
      if Str.contains DUPLICATED_MSG msg then FunctionDeployError msg else e
  | _ => e
  end.

(** Grants read off a capability list, written independently of the
    verifiers: some capability of [acl] lists [action] (in any scope, or
    in the "all" scope). *)
Definition grants_action (caps : list Access.Capability) (a act : string) : Prop :=
  exists c, In c caps /\ Access.acl c = a /\ In act (Access.actions c).

Definition grants_all_scope (caps : list Access.Capability) (a act : string) : Prop :=
  exists c, In c caps /\ Access.acl c = a /\ Access.is_all_scope c = true /\
    In act (Access.actions c).

(** A client whose token lists projects and capabilities and whose groups
    give functions READ and WRITE and files READ, all in the "all" scope:
    files WRITE and sessions CREATE are missing. *)
Definition cap_all (a : string) (acts : list string) : Access.Capability :=
  {| Access.acl := a; Access.actions := acts; Access.scope := [("all", [])] |}.

Definition partial_client : Access.AccessClient :=
  {| Access.ac_token := Some (true, true);
     Access.ac_groups := Some [cap_all "functionsAcl" ["READ"; "WRITE"];
                               cap_all "filesAcl" ["READ"]];
     Access.ac_datasets := ∅ |}.

(** Two deployed functions and one schedule named "daily". *)
Definition function_a : Function :=
  {| fn_external_id := "fa"; fn_id := 1; fn_status := "Ready"; fn_error := ("", "") |}.
Definition function_b : Function :=
  {| fn_external_id := "fb"; fn_id := 2; fn_status := "Ready"; fn_error := ("", "") |}.
Definition daily : Schedules.FunctionSchedule :=
  {| Schedules.fs_name := "daily"; Schedules.fs_description := None;
     Schedules.fs_cron_expression := "0 0 * * *"; Schedules.fs_data := None |}.

(** A schedule item named "daily" with a cron expression, and a cron check
    that accepts that expression. *)
Definition daily_item : list (string * Schedules.yaml) :=
  [("name", Schedules.YStr "daily"); ("cron", Schedules.YStr "0 0 * * *")].
Definition sample_cron_is_valid (c : string) : bool := String.eqb c "0 0 * * *".

(** A function folder "f" whose schedule file "s.yaml" is not valid YAML,
    and one whose schedule file is a list holding a number. *)
Definition malformed_fs : gmap string Schedules.yaml_doc :=
  <["f/s.yaml" := Schedules.Malformed "mapping values are not allowed here"]> ∅.
Definition bad_entry_fs : gmap string Schedules.yaml_doc :=
  <["f/s.yaml" := Schedules.Doc (Schedules.YList [Schedules.YInt 3])]> ∅.

(** The delays [_retry] sleeps, read off its loop: [delay], then
    [delay * backoff + jitter] capped by [max_delay], and so on. *)
Definition next_delay (max_delay : option Z) (backoff jitter d : Z) : Z :=
  match max_delay with Some md => Z.min (d * backoff + jitter) md | None => d * backoff + jitter end.

Fixpoint retry_delays (n : nat) (delay : Z) (max_delay : option Z) (backoff jitter : Z)
    : list Z :=
  match n with
  | O => []
  | S n' => delay :: retry_delays n' (next_delay max_delay backoff jitter delay)
                                  max_delay backoff jitter
  end.

(* ------------------------------------------------------------------ *)
(** ** [configs.py]: the credential models, their root validators and
    [PipelineModel.from_envvars] *)

Module Configs.

(** The values of a [CredentialsModel] after the field validators:
    [cdf_project], [cdf_cluster] and the OIDC fields, and [data_set_id]
    of [DeployCredentials]. *)
Record CredValues := {
  cdf_project : string;
  cdf_cluster : string;
  client_id : option string;
  client_secret : option string;
  tenant_id : option string;
  token_url : option string;
  token_scopes : option (list string);
  data_set_id : option Z
}.

Definition set_token_url (u : option string) (v : CredValues) : CredValues :=
  {| cdf_project := cdf_project v; cdf_cluster := cdf_cluster v; client_id := client_id v;
     client_secret := client_secret v; tenant_id := tenant_id v; token_url := u;
     token_scopes := token_scopes v; data_set_id := data_set_id v |}.
Definition set_token_scopes (sc : option (list string)) (v : CredValues) : CredValues :=
  {| cdf_project := cdf_project v; cdf_cluster := cdf_cluster v; client_id := client_id v;
     client_secret := client_secret v; tenant_id := tenant_id v; token_url := token_url v;
     token_scopes := sc; data_set_id := data_set_id v |}.

(** The values of a [SchedulesConfig]: its credentials and the schedule
    fields. *)
Record SchedValues := {
  sc_creds : CredValues;
  schedule_file : option string;
  function_folder : string;
  schedules : option (list Schedules.FunctionSchedule)
}.

Section Validators.

(** [defaults.py] is not among the sources: [DEFAULT_TOKEN_URL t] stands
    for [DEFAULT_TOKEN_URL.format(t)] and [DEFAULT_TOKEN_SCOPES c] for
    [DEFAULT_TOKEN_SCOPES.format(c)]. *)
Variable DEFAULT_TOKEN_URL : string -> string.
Variable DEFAULT_TOKEN_SCOPES : string -> string.
(** [utils.create_oidc_client_from_dct(values)], as the access checks
    see the client it builds. *)
Variable create_oidc_client_from_dct : CredValues -> Access.AccessClient.

(** [CredentialsModel.verify_oidc_params]: the new values or the
    exception, with the warnings logged. *)
Definition verify_oidc_params (cred_type : string) (values : CredValues)
    : result CredValues * list string :=
  let '(r, warnings) :=
    match tenant_id values, token_url values with
    | Some t, None => (Ok (set_token_url (Some (DEFAULT_TOKEN_URL t)) values), [])
    | Some _, Some _ =>
        (Ok values, ["Both '" ++ cred_type ++ "_token_url' and '" ++ cred_type ++
                     "_tenant_id' were provided; '" ++ cred_type ++
                     "_tenant_id' will be ignored!"])
    | None, None =>
        if String.eqb cred_type "deployment"
        then (Err (ValueError "Either 'deployment_token_url' OR 'deployment_tenant_id' must be provided!"), [])
        else (Ok values, [])
    | None, Some _ => (Ok values, [])
    end in
  match r with
  | Err e => (Err e, warnings)
  | Ok values =>
      match token_scopes values with
      | None => (Ok (set_token_scopes (Some [DEFAULT_TOKEN_SCOPES (cdf_cluster values)]) values),
                 warnings)
      | Some _ => (Ok values, warnings)
      end
  end.

(** [DeployCredentials]: Pydantic runs the inherited root validator
    [verify_oidc_params] first, then [verify_credentials_and_capabilities]
    ([skip_on_failure=True]: the second does not run when the first
    raised). *)
Definition DeployCredentials_validate (values : CredValues) : result CredValues * list string :=
  match verify_oidc_params "deployment" values with
  | (Err e, w) => (Err e, w)
  | (Ok values, w) =>
      match Access.verify_deploy_capabilites (create_oidc_client_from_dct values)
              (data_set_id values) "deploy" with
      | Err e => (Err e, w)
      | Ok _ => (Ok values, w)
      end
  end.

(** [SchedulesConfig.verify_schedule_credentials] *)
Definition verify_schedule_credentials (values : SchedValues) : result SchedValues :=
  match schedule_file values with
  | None => Ok values
  | Some _ =>
      let c := sc_creds values in
      if bool_decide (client_secret c = None) || bool_decide (client_id c = None) then
        Err (ValueError ("When using OIDC functions with schedules, additional client credentials " ++
                         "to be used at runtime are required. Missing at least one of " ++
                         "['schedules_client_secret', 'schedules_client_id']."))
      else
        match token_url c with
        | None =>
            Err (ValueError ("When using OIDC functions with schedules, either " ++
                             "'schedules_token_url' OR 'schedules_tenant_id' must be provided!"))
        | Some _ =>
            match Access.verify_schedule_creds_capabilities (create_oidc_client_from_dct c)
                    "schedule" with
            | Err e => Err e
            | Ok _ => Ok values
            end
        end
  end.

(** [SchedulesConfig]: [verify_oidc_params], then
    [verify_schedule_file_and_parse], then [verify_schedule_credentials]. *)
Definition SchedulesConfig_validate (cron_is_valid : string -> bool)
    (fs : gmap string Schedules.yaml_doc) (values : SchedValues)
    : result SchedValues * list string :=
  match verify_oidc_params "schedules" (sc_creds values) with
  | (Err e, w) => (Err e, w)
  | (Ok c, w) =>
      match Schedules.verify_schedule_file_and_parse cron_is_valid fs
              (function_folder values) (schedule_file values) with
      | (Err e, w2) => (Err e, app w w2)
      | (Ok (file, scheds), w2) =>
          (verify_schedule_credentials
             {| sc_creds := c; schedule_file := file;
                function_folder := function_folder values; schedules := Some scheds |},
           app w w2)
      end
  end.

End Validators.

(** [get_parameter] inside [PipelineModel.from_envvars]:
    [getenv(f"{prefix}{key.upper()}", "").strip() or None], with the
    prefix chosen by the runtime environment detected at import. *)
Definition get_parameter (RUNNING_IN_AZURE_PIPE RUNNING_IN_GITHUB_ACTION : bool)
    (env : gmap string string) (key : string) (prefix : string) : option string :=
  let prefix := if RUNNING_IN_AZURE_PIPE then "" else
                if RUNNING_IN_GITHUB_ACTION then "INPUT_" else prefix in
  let v := Str.strip (default "" (env !! (prefix ++ Str.upper key))) in
  if String.eqb v "" then None else Some v.

(** The dict passed to [cls.parse_obj]:
    [{k: v for k, v in zip(expected_params, map(get_parameter, expected_params)) if v is not None}] *)
Fixpoint from_envvars_params (azure github : bool) (env : gmap string string)
    (expected_params : list string) : list (string * string) :=
  match expected_params with
  | [] => []
  | k :: rest =>
      match get_parameter azure github env k "" with
      | Some v => (k, v) :: from_envvars_params azure github env rest
      | None => from_envvars_params azure github env rest
      end
  end.

End Configs.

(* ------------------------------------------------------------------ *)
(** ** [config.TenantConfig.check_credentials] (the earlier configuration
    module) *)

Module Config.

(** [client.login.status()]: [logged_in] and [project]. *)
Record LoginStatus := { logged_in : bool; login_project : string }.

(** The values the root validator reads. *)
Record TenantValues := {
  cdf_project : option string;
  cdf_deployment_credentials : string;
  cdf_runtime_credentials : string;
  cdf_base_url : string
}.

Definition credentials_of (env : string) (values : TenantValues) : string :=
  if String.eqb env "deployment" then cdf_deployment_credentials values
  else cdf_runtime_credentials values.

Section Tenant.
(** The login status the service reports for an API key and base URL. *)
Variable login_status : string -> string -> LoginStatus.

(** [TenantConfig._verify_credentials(env, values)]; [env] is
    "deployment" or "runtime" (the info log is left out). *)
Definition _verify_credentials (env : string) (values : TenantValues) : result string :=
  let st := login_status (credentials_of env values) (cdf_base_url values) in
  let inferred_project := login_project st in
  if negb (logged_in st) then
    Err (ValueError ("Can't login with " ++ env ++ " credentials (base-URL used: '" ++
                     cdf_base_url values ++ "')"))
  else
    match cdf_project values with
    | Some given_project =>
        if negb (String.eqb inferred_project given_project) then
          Err (ValueError ("Inferred project, " ++ inferred_project ++ ", from the provided " ++
                           env ++ " credentials does not match the given project: " ++
                           given_project))
        else Ok inferred_project
    | None => Ok inferred_project
    end.

Definition check_credentials (values : TenantValues) : result TenantValues :=
  match _verify_credentials "deployment" values with
  | Err e => Err e
  | Ok deploy_project =>
      match _verify_credentials "runtime" values with
      | Err e => Err e
      | Ok runtime_project =>
          if negb (String.eqb deploy_project runtime_project) then
            Err (ValueError ("The deployment- and runtime credentials are for separate projects, " ++
                             "deployment: " ++ deploy_project ++ ", runtime: " ++ runtime_project))
          else
            Ok {| cdf_project := Some deploy_project;
                  cdf_deployment_credentials := cdf_deployment_credentials values;
                  cdf_runtime_credentials := cdf_runtime_credentials values;
                  cdf_base_url := cdf_base_url values |}
      end
  end.

End Tenant.
End Config.

(* ------------------------------------------------------------------ *)
(** ** [checks.HandleVisitor] and [checks._check_handle_args] *)

Module Checks.

#[local] Set Warnings "-register-all".

(** The statements of a parsed module, as far as the visitor sees them:
    a [def] with its name, positional argument names ([fn_def.args.args])
    and body; an [async def]; a class; any other compound statement with
    its nested statements in order (the [body], [orelse], ... fields that
    [generic_visit] walks); a simple statement. *)
Inductive stmt :=
| FunctionDef (name : string) (args : list string) (body : list stmt)
| AsyncFunctionDef (name : string) (args : list string) (body : list stmt)
| ClassDef (name : string) (body : list stmt)
| Compound (body : list stmt)
| Simple.

(** Raised [FunctionValidationError]s, or the value. *)
Inductive outcome (A : Type) := Fine (a : A) | FunctionValidationError (msg : string).
Arguments Fine {A} a.
Arguments FunctionValidationError {A} msg.

Definition HANDLE_ARGS := ["data"; "client"; "secrets"; "function_call_info"].

Record Visitor := { file_path : string; handle_found : bool; fn_names : list string }.

(** [HandleVisitor.visit_FunctionDef]: it does not call
    [generic_visit], so the body of a [def] is not visited.  The error
    messages leave out the list of illegal arguments. *)
Definition visit_FunctionDef (self : Visitor) (name : string) (args : list string)
    : outcome Visitor :=
  let self := {| file_path := file_path self; handle_found := handle_found self;
                 fn_names := app (fn_names self) [name] |} in
  if negb (String.eqb name "handle") then Fine self
  else if handle_found self then FunctionValidationError "Multiple function definitions found!"
  else
    let bad_args := List.filter (fun a => negb (existsb (String.eqb a) HANDLE_ARGS)) args in
    match bad_args with
    | [] => Fine {| file_path := file_path self; handle_found := true;
                    fn_names := fn_names self |}
    | _ =>
        FunctionValidationError
          ("In file '" ++ file_path self ++ "', function 'handle' contained illegal args")
    end.

(** [NodeVisitor.visit]: a [def] goes to [visit_FunctionDef], every other
    node to [generic_visit], which visits its children in order. *)
Fixpoint visit (self : Visitor) (s : stmt) : outcome Visitor :=
  let fix visit_all (self : Visitor) (l : list stmt) : outcome Visitor :=
    match l with
    | [] => Fine self
    | x :: rest =>
        match visit self x with
        | Fine self => visit_all self rest
        | FunctionValidationError m => FunctionValidationError m
        end
    end in
  match s with
  | FunctionDef name args _ => visit_FunctionDef self name args
  | AsyncFunctionDef _ _ body | ClassDef _ body | Compound body => visit_all self body
  | Simple => Fine self
  end.

(** [_check_handle_args] on the parsed file ([ast.parse(file)] is the
    module [Compound body]). *)
Definition _check_handle_args (file_path : string) (body : list stmt) : outcome unit :=
  match visit {| file_path := file_path; handle_found := false; fn_names := [] |}
          (Compound body) with
  | FunctionValidationError m => FunctionValidationError m
  | Fine v =>
      if negb (handle_found v) then
        FunctionValidationError ("Required function named 'handle' was not found in file '" ++
                                 file_path ++ "'")
      else Fine tt
  end.

(** The [def]s the visitor reaches, in visiting order: name and
    arguments. *)
Fixpoint visited_defs (s : stmt) : list (string * list string) :=
  match s with
  | FunctionDef name args _ => [(name, args)]
  | AsyncFunctionDef _ _ body | ClassDef _ body | Compound body => flat_map visited_defs body
  | Simple => []
  end.

End Checks.

(* ------------------------------------------------------------------ *)
(** ** [cleanup.run_cleanup] and [cleanup._delete_code_file] *)

(** [fn._cognite_client.files.delete(external_id=file_xid)]; every
    [CogniteAPIError] is logged and swallowed.  Of the [FunctionConfig]
    only [post_deploy_cleanup] is read. *)
Definition _delete_code_file (fn : Function) : M unit :=
  let file_xid := create_zipfile_name (fn_external_id fn) in
  try_except
    (files_delete file_xid;;
     logger INFO ("- Code file object deleted! (XID: " ++ file_xid ++ ")"))
    (fun e =>
       match e with
       | CogniteAPIError _ =>
           logger INFO ("- Unable to delete file object with external ID: " ++ file_xid ++ ")")
       | _ => raise e
       end).

(** A deployed function whose code file is in [sample_remote]. *)
Definition sample_function : Function :=
  {| fn_external_id := "fn"; fn_id := 7; fn_status := "Ready"; fn_error := ("", "") |}.

Definition run_cleanup (fn : Function) (post_deploy_cleanup : bool) : M unit :=
  if negb post_deploy_cleanup then logger INFO "Skipping post-deployment cleanup!"
  else
    logger INFO "Running post-deployment cleanup!";;
    _delete_code_file fn.

(** Grants for a data set [d], read off the capabilities: a datasetsAcl
    capability in the "all" scope or with [d] in its ids, and a filesAcl
    capability with [d] in its data set scope. *)
Definition grants_dataset (caps : list Access.Capability) (d : Z) (act : string) : Prop :=
  exists c, In c caps /\ Access.acl c = "datasetsAcl" /\
    (Access.is_all_scope c || Access.is_ids_scope d c) = true /\ In act (Access.actions c).

Definition grants_files_in_dataset (caps : list Access.Capability) (d : Z) (act : string) : Prop :=
  exists c, In c caps /\ Access.acl c = "filesAcl" /\
    Access.is_dataset_scope d c = true /\ In act (Access.actions c).

(** A client that may read data set 5, which is write protected. *)
Definition dataset_client : Access.AccessClient :=
  {| Access.ac_token := Some (true, true);
     Access.ac_groups := Some [cap_all "datasetsAcl" ["READ"]];
     Access.ac_datasets := <[5 := true]> ∅ |}.

(** Files READ granted in data set 5's scope, nothing for data sets. *)
Definition files_ds_caps : list Access.Capability :=
  [{| Access.acl := "filesAcl"; Access.actions := ["READ"];
      Access.scope := [("datasetScope", [5])] |}].

(** A client whose credentials have every capability the verifiers ask
    for, in the "all" scope. *)
Definition full_client : Access.AccessClient :=
  {| Access.ac_token := Some (true, true);
     Access.ac_groups := Some [cap_all "functionsAcl" ["READ"; "WRITE"];
                               cap_all "filesAcl" ["READ"; "WRITE"];
                               cap_all "sessionsAcl" ["CREATE"]];
     Access.ac_datasets := ∅ |}.

Definition sample_token_url (t : string) : string :=
  "https://login.microsoftonline.com/" ++ t ++ "/oauth2/v2.0/token".
Definition sample_token_scopes (c : string) : string :=
  "https://" ++ c ++ ".cognitedata.com/.default".

(** Deployment credentials with a tenant id and no token URL. *)
Definition deploy_values : Configs.CredValues :=
  {| Configs.cdf_project := "proj"; Configs.cdf_cluster := "westeurope-1";
     Configs.client_id := Some "id"; Configs.client_secret := Some "secret";
     Configs.tenant_id := Some "tenant"; Configs.token_url := None;
     Configs.token_scopes := None; Configs.data_set_id := None |}.

(** Schedule credentials left empty. *)
Definition no_creds : Configs.CredValues :=
  {| Configs.cdf_project := "proj"; Configs.cdf_cluster := "westeurope-1";
     Configs.client_id := None; Configs.client_secret := None;
     Configs.tenant_id := None; Configs.token_url := None;
     Configs.token_scopes := None; Configs.data_set_id := None |}.

(** A repository with one schedule file "fn/schedules.yaml". *)
Definition schedule_fs : gmap string Schedules.yaml_doc :=
  {["fn/schedules.yaml" := Schedules.Doc (Schedules.YList
      [Schedules.YMap [("name", Schedules.YStr "daily"); ("cron", Schedules.YStr "0 0 * * *")]])]}.

Definition sched_values (c : Configs.CredValues) (file : option string) : Configs.SchedValues :=
  {| Configs.sc_creds := c; Configs.schedule_file := file;
     Configs.function_folder := "fn"; Configs.schedules := None |}.

Definition tenant_values : Config.TenantValues :=
  {| Config.cdf_project := Some "proj"; Config.cdf_deployment_credentials := "deploy-key";
     Config.cdf_runtime_credentials := "runtime-key";
     Config.cdf_base_url := "https://api.cognitedata.com" |}.

(* ================================================================== *)
(** * Properties *)

(* ------------------------------------------------------------------ *)
(** ** Zip-file names *)

Lemma replace_char_length (o n : ascii) (s : string) :
  String.length (Str.replace_char o n s) = String.length s.
Proof. induction s as [|c s IH]; simpl; auto. Qed.

Lemma string_length_append (a b : string) :
  String.length (a ++ b) = (String.length a + String.length b)%nat.
Proof. induction a as [|c a IH]; simpl; auto. Qed.

Lemma create_zipfile_name_get (s : string) (i : nat) :
  String.get i (create_zipfile_name s) =
  if (i <? String.length s)%nat
  then option_map (fun c => if Ascii.eqb c "/" then "-"%char else c) (String.get i s)
  else String.get (i - String.length s) ".zip".
Proof.
  unfold create_zipfile_name.
  revert i; induction s as [|c s IH]; intros i.
  - simpl. now rewrite Nat.sub_0_r.
  - destruct i as [|i]; simpl; [reflexivity|].
    rewrite IH. reflexivity.
Qed.

(** C10: [create_zipfile_name] (and [get_file_name], which has the same
    body) maps an external id to the id with each '/' replaced by '-',
    followed by ".zip"; two distinct ids, "a/b" and "a-b", get the same
    name. *)
Theorem create_zipfile_name_not_injective :
  (forall s, get_file_name s = create_zipfile_name s) /\
  (forall s, String.length (create_zipfile_name s) = (String.length s + 4)%nat) /\
  (forall s i, String.get i (create_zipfile_name s) =
     if (i <? String.length s)%nat
     then option_map (fun c => if Ascii.eqb c "/" then "-"%char else c) (String.get i s)
     else String.get (i - String.length s) ".zip") /\
  "a/b" <> "a-b" /\
  create_zipfile_name "a/b" = create_zipfile_name "a-b".
Proof.
  split; [reflexivity|].
  split.
  { intros s. unfold create_zipfile_name.
    rewrite string_length_append, replace_char_length. reflexivity. }
  split; [exact create_zipfile_name_get|].
  split; [discriminate|reflexivity].
Qed.

(* ------------------------------------------------------------------ *)
(** ** Entry-file names *)

Lemma match_body_no_slash (b : bool) (s : string) :
  FnFile.match_body b s = true ->
  forall c, In c (list_ascii_of_string s) -> c <> "/"%char /\ c <> "\"%char.
Proof.
  revert b; induction s as [|c0 s IH]; intros b H c Hin; simpl in *; [discriminate|].
  destruct (FnFile.in_class c0) eqn:Hc.
  - destruct Hin as [<-|Hin]; [|eauto].
    split; intros ->; vm_compute in Hc; discriminate.
  - destruct (Ascii.eqb c0 ".") eqn:Hd; [|discriminate].
    apply Ascii.eqb_eq in Hd; subst c0.
    apply andb_prop in H as [_ He].
    unfold FnFile.ext_ok in He.
    apply orb_prop in He as [He|He]; apply String.eqb_eq in He; subst s;
      simpl in Hin; intuition (subst; discriminate).
Qed.

(** C4 (the code's pattern [^[\w\- ]+\.(py|js)$] against the listed
    names): "baz.py" is accepted and the four rejected names are rejected,
    but so are "home/user/baz.py" and "home/user_foo/bar-baz.py", which
    the claim (and the repository's tests) expect to be accepted.  Every
    accepted name, once stripped, contains neither '/' nor '\'. *)
Theorem fn_file_rejects_nested_paths :
  FnFile.validate "baz.py" = true /\
  FnFile.validate "home/user/baz.py" = false /\
  FnFile.validate "home/user_foo/bar-baz.py" = false /\
  FnFile.validate "/home/user/foo.py" = false /\
  FnFile.validate "/home/user//bar.py" = false /\
  FnFile.validate "\home\user\bar.py" = false /\
  FnFile.validate "/.py" = false /\
  (forall s, FnFile.validate s = true ->
   forall c, In c (list_ascii_of_string (Str.strip s)) -> c <> "/"%char /\ c <> "\"%char).
Proof.
  do 7 (split; [vm_compute; reflexivity|]).
  intros s H. unfold FnFile.validate in H.
  apply andb_prop in H as [_ H]. exact (match_body_no_slash false _ H).
Qed.

(* ------------------------------------------------------------------ *)
(** ** Deleting the function and its code file *)

(** C6: when the code file exists and the service refuses its delete, a
    file governed by a data set is logged at ERROR level and the call
    returns normally (the remote state is untouched); an ungoverned file
    makes the [CogniteAPIError] propagate. *)
Theorem delete_function_file_governed_failure (s : St) (xid : string) (meta : FileMeta) :
  r_files (remote s) !! xid = Some meta ->
  xid ∈ r_file_delete_denied (remote s) ->
  (forall ds, fm_data_set_id meta = Some ds ->
     exists s', delete_function_file xid s = (Ok tt, s') /\ remote s' = remote s /\
                exists msg, In (ERROR, msg) (log s')) /\
  (fm_data_set_id meta = None ->
     exists msg s', delete_function_file xid s = (Err (CogniteAPIError msg), s')).
Proof.
  intros Hf Hd.
  unfold delete_function_file, files_retrieve, files_delete, try_except, logger,
    mbind, M_bind, mret, M_ret; simpl.
  rewrite Hf. rewrite decide_True by exact Hd.
  split.
  - intros ds Hds. rewrite Hds. eexists. split; [reflexivity|].
    split; [reflexivity|]. eexists. simpl. left. reflexivity.
  - intros Hn. rewrite Hn. eexists _, _. reflexivity.
Qed.

Lemma delete_function_file_governed_failure_witness :
  r_files (remote sample_state) !! "fn.zip" =
    Some {| fm_id := 11; fm_data_set_id := Some 42 |} /\
  "fn.zip" ∈ r_file_delete_denied (remote sample_state) /\
  ((forall ds, Some 42 = Some ds ->
     exists s', delete_function_file "fn.zip" sample_state = (Ok tt, s') /\
                remote s' = remote sample_state /\
                exists msg, In (ERROR, msg) (log s')) /\
   (Some 42 = None ->
     exists msg s', delete_function_file "fn.zip" sample_state = (Err (CogniteAPIError msg), s'))).
Proof.
  assert (Hf : r_files (remote sample_state) !! "fn.zip" =
                 Some {| fm_id := 11; fm_data_set_id := Some 42 |}) by reflexivity.
  assert (Hd : "fn.zip" ∈ r_file_delete_denied (remote sample_state))
    by (simpl; apply elem_of_singleton; reflexivity).
  split; [exact Hf|]. split; [exact Hd|].
  exact (delete_function_file_governed_failure sample_state "fn.zip" _ Hf Hd).
Defined.

Lemma denotes_bind {A B} (m : M A) f (k : A -> M B) g :
  denotes m f -> (forall a, denotes (k a) (g a)) -> denotes (m ≫= k) (then_effect f g).
Proof.
  intros Hm Hk s. unfold mbind, M_bind, then_effect.
  specialize (Hm s). destruct (m s) as [r s'], (f (remote s)) as [r' R'].
  simpl in Hm. destruct Hm as [-> HR]. destruct r' as [a|e]; simpl; [|auto].
  specialize (Hk a s'). rewrite HR in Hk. exact Hk.
Qed.

Lemma denotes_ext {A} (m : M A) f g :
  denotes m f -> (forall R, f R = g R) -> denotes m g.
Proof. intros H E s. rewrite <- E. apply H. Qed.

Lemma delete_function_denotes (xid : string) :
  denotes (delete_function xid) (fn_delete_effect xid).
Proof.
  intros s. unfold delete_function, fn_delete_effect, functions_retrieve, functions_delete,
    logger, mbind, M_bind, mret, M_ret. cbn.
  destruct (r_functions (remote s) !! xid) as [id|] eqn:Hf; cbn; [|auto].
  case_decide; cbn; [auto|]. rewrite Hf. cbn. auto.
Qed.

Lemma delete_function_file_denotes (xid : string) :
  denotes (delete_function_file xid) (file_delete_effect xid).
Proof.
  intros s. unfold delete_function_file, file_delete_effect, files_retrieve, files_delete,
    try_except, logger, mbind, M_bind, mret, M_ret. cbn.
  destruct (r_files (remote s) !! xid) as [meta|] eqn:Hf; cbn; [|auto].
  case_decide; cbn.
  - destruct (fm_data_set_id meta); cbn; auto.
  - rewrite Hf. cbn. auto.
Qed.

Lemma time_sleep_denotes (d : Z) : 0 <= d -> denotes (time_sleep d) (fun R => (Ok tt, R)).
Proof. intros Hd s. unfold time_sleep. destruct (Z.ltb_spec d 0); [lia|]. split; reflexivity. Qed.

Lemma remove_function_with_file_denotes (xid : string) :
  denotes (remove_function_with_file xid) (remove_effect xid).
Proof.
  unfold remove_function_with_file.
  eapply denotes_ext.
  - apply denotes_bind; [apply delete_function_denotes|intros a].
    apply denotes_bind; [apply delete_function_file_denotes|intros b].
    apply time_sleep_denotes. lia.
  - intros R. unfold remove_effect, then_effect.
    destruct (fn_delete_effect xid R) as [[[]|?] ?]; [|reflexivity].
    destruct (file_delete_effect _ _) as [[[]|?] ?]; reflexivity.
Qed.

Lemma file_delete_effect_functions (f : string) (R : Remote) :
  r_functions (file_delete_effect f R).2 = r_functions R.
Proof.
  unfold file_delete_effect.
  destruct (r_files R !! f); [case_decide|]; reflexivity.
Qed.

Lemma fn_delete_effect_ok (xid : string) (R R1 : Remote) (u : unit) :
  fn_delete_effect xid R = (Ok u, R1) -> r_functions R1 !! xid = None.
Proof.
  unfold fn_delete_effect.
  destruct (r_functions R !! xid) eqn:Hf; [case_decide|]; intros E; inversion E; subst.
  - cbn. apply lookup_delete_eq.
  - exact Hf.
Qed.

Lemma fn_delete_effect_none (xid : string) (R : Remote) :
  r_functions R !! xid = None -> fn_delete_effect xid R = (Ok tt, R).
Proof. unfold fn_delete_effect. intros ->. reflexivity. Qed.

Lemma file_delete_effect_ok_idem (f : string) (R R2 : Remote) (u : unit) :
  file_delete_effect f R = (Ok u, R2) -> file_delete_effect f R2 = (Ok tt, R2).
Proof.
  unfold file_delete_effect.
  destruct (r_files R !! f) as [meta|] eqn:Hz.
  - case_decide as Hd.
    + destruct (fm_data_set_id meta) eqn:Hds; intros E; inversion E; subst.
      rewrite Hz, decide_True by exact Hd. rewrite Hds. reflexivity.
    + intros E; inversion E; subst. cbn. rewrite lookup_delete_eq. reflexivity.
  - intros E; inversion E; subst. rewrite Hz. reflexivity.
Qed.

Lemma remove_effect_idempotent (xid : string) (R : Remote) :
  then_effect (remove_effect xid) (fun _ => remove_effect xid) R = remove_effect xid R.
Proof.
  unfold then_effect at 1.
  remember (remove_effect xid R) as p eqn:Hp.
  destruct p as [[v|e] R2]; [|reflexivity].
  unfold remove_effect, then_effect in Hp.
  destruct (fn_delete_effect xid R) as [[u|e] R1] eqn:E1; [|discriminate].
  symmetry in Hp. rename Hp into E2.
  unfold remove_effect, then_effect.
  assert (HN : r_functions R2 !! xid = None).
  { pose proof (file_delete_effect_functions (create_zipfile_name xid) R1) as HF.
    rewrite E2 in HF. cbn in HF. rewrite HF. exact (fn_delete_effect_ok _ _ _ _ E1). }
  rewrite (fn_delete_effect_none _ _ HN).
  rewrite (file_delete_effect_ok_idem _ _ _ _ E2). destruct v. reflexivity.
Qed.

(** C5: deleting a function and its code file that do not exist returns
    normally and changes nothing remote; and deleting twice in a row is,
    to an observer (raised or not, remote functions and files), the same
    as deleting once. *)
Theorem remove_function_with_file_idempotent (xid : string) (s : St) :
  (r_functions (remote s) !! xid = None ->
   r_files (remote s) !! create_zipfile_name xid = None ->
   exists s', remove_function_with_file xid s = (Ok tt, s') /\ remote s' = remote s) /\
  observable ((remove_function_with_file xid;; remove_function_with_file xid) s) =
  observable (remove_function_with_file xid s).
Proof.
  split.
  - intros Hf Hz.
    destruct (remove_function_with_file_denotes xid s) as [H1 H2].
    unfold remove_effect, then_effect, fn_delete_effect, file_delete_effect in H1, H2.
    rewrite Hf in H1, H2. cbn in H1, H2. rewrite Hz in H1, H2. cbn in H1, H2.
    destruct (remove_function_with_file xid s) as [r s']. cbn in H1, H2. subst r.
    exists s'. split; [reflexivity|exact H2].
  - pose proof (denotes_bind _ _ _ _ (remove_function_with_file_denotes xid)
                  (fun _ => remove_function_with_file_denotes xid) s) as [A1 A2].
    destruct (remove_function_with_file_denotes xid s) as [B1 B2].
    rewrite remove_effect_idempotent in A1, A2.
    unfold observable. rewrite A1, A2, B1, B2. reflexivity.
Qed.

Lemma remove_function_with_file_idempotent_witness :
  (r_functions (remote sample_state) !! "gone" = None /\
   r_files (remote sample_state) !! create_zipfile_name "gone" = None) /\
  exists s', remove_function_with_file "gone" sample_state = (Ok tt, s') /\
             remote s' = remote sample_state.
Proof.
  assert (Hf : r_functions (remote sample_state) !! "gone" = None) by reflexivity.
  assert (Hz : r_files (remote sample_state) !! create_zipfile_name "gone" = None)
    by reflexivity.
  split; [split; assumption|].
  exact (proj1 (remove_function_with_file_idempotent "gone" sample_state) Hf Hz).
Defined.

(* ------------------------------------------------------------------ *)
(** ** Awaiting a deployment *)

Definition non_terminal (st : string) : Prop :=
  st <> FunctionStatus.READY /\ st <> FunctionStatus.FAILED.

Lemma await_loop_timeout (xid : string) (wait t0 : Z) (n : nat) :
  forall (k : Z) (s : St) (f : Function),
  0 <= k -> clock s = t0 + 5 * k -> wait < 5 * (k + Z.of_nat n) ->
  fn_external_id f = xid -> (clock s <= t0 + wait -> non_terminal (fn_status f)) ->
  (forall t, clock s <= t <= t0 + wait -> non_terminal (r_status (remote s) xid t)) ->
  exists msg s', await_loop n xid wait t0 f s = (Err (FunctionDeployTimeout msg), s') /\
    remote s' = remote s /\ exists new, calls s' = app new (calls s) /\
    Forall (fun c => c = CUpdateFn xid \/ c = CSleep 5) new.
Proof.
  induction n as [|n IH]; intros k s f Hk Hc Hw Hx Hf Hst;
    cbn [await_loop]; unfold time_time, mbind, M_bind, logger, raise, mret, M_ret.
  - rewrite Hc. destruct (Z.leb_spec (t0 + 5 * k) (t0 + wait)) as [Hle|Hgt]; [lia|].
    do 2 eexists. split; [reflexivity|]. split; [reflexivity|].
    exists []. split; [reflexivity|]. constructor.
  - rewrite Hc. destruct (Z.leb_spec (t0 + 5 * k) (t0 + wait)) as [Hle|Hgt].
    + destruct (Hf ltac:(lia)) as [Hr Hfl].
      apply String.eqb_neq in Hr, Hfl. rewrite Hr, Hfl.
      unfold time_sleep, function_update. cbn.
      set (s2 := add_call (CUpdateFn (fn_external_id f)) (advance 5 (add_call (CSleep 5) s))).
      destruct (IH (k + 1) s2
                  (read_function (remote s2) (clock s2) (fn_external_id f) (fn_id f)))
        as (msg & s' & Hrun & Hrem & new & Hcalls & Hnew); subst xid.
      * lia.
      * cbn. rewrite Hc. lia.
      * lia.
      * reflexivity.
      * intros Hle'. apply Hst. cbn in *. lia.
      * intros t Ht. apply Hst. cbn in Ht. lia.
      * exists msg, s'. split; [exact Hrun|]. split; [exact Hrem|].
        exists (app new [CUpdateFn (fn_external_id f); CSleep 5]).
        split; [rewrite Hcalls; cbn; rewrite <- app_assoc; reflexivity|].
        apply Forall_app. split; [exact Hnew|].
        constructor; [left; reflexivity|]. constructor; [right; reflexivity|]. constructor.
    + do 2 eexists. split; [reflexivity|]. split; [reflexivity|].
      exists []. split; [reflexivity|]. constructor.
Qed.

(** C1 (as the code does it): when the function exists and every status
    the service reports for it within the wait budget (at the times from
    the call to [clock + wait_time_sec]) is neither "Ready" nor "Failed",
    [await_function_deployment] ends in one [FunctionDeployTimeout] and
    leaves the remote state as it was; its SDK calls are the initial
    retrieve, then only status updates with 5 s sleeps between them: no
    delete of the function is attempted. *)
Theorem await_function_deployment_timeout_no_cancel (xid : string) (wait : Z)
    (s : St) (id : Z) :
  0 <= wait ->
  r_functions (remote s) !! xid = Some id ->
  (forall t, clock s <= t <= clock s + wait -> non_terminal (r_status (remote s) xid t)) ->
  exists msg s', await_function_deployment xid wait s = (Err (FunctionDeployTimeout msg), s') /\
    remote s' = remote s /\
    exists new, calls s' = app new (CRetrieveFn xid :: calls s) /\
      Forall (fun c => c = CUpdateFn xid \/ c = CSleep 5) new.
Proof.
  intros Hw Hf Hst.
  unfold await_function_deployment, functions_retrieve, time_time, mbind, M_bind. cbn.
  rewrite Hf. cbn.
  set (s1 := add_call (CRetrieveFn xid) s).
  destruct (await_loop_timeout xid wait (clock s1) (await_fuel wait) 0 s1
              (read_function (remote s1) (clock s1) xid id))
    as (msg & s' & Hrun & Hrem & new & Hcalls & Hnew).
  - lia.
  - lia.
  - unfold await_fuel. rewrite Nat2Z.inj_succ, Z2Nat.id by (apply Z.div_pos; lia).
    pose proof (Z.div_mod wait 5) as Hd. pose proof (Z.mod_pos_bound wait 5) as Hm. lia.
  - reflexivity.
  - intros _. apply Hst. cbn. lia.
  - intros t Ht. apply Hst. cbn in Ht. lia.
  - exists msg, s'. split; [exact Hrun|]. split; [exact Hrem|].
    exists new. split; [exact Hcalls|exact Hnew].
Qed.

Lemma await_function_deployment_timeout_no_cancel_witness :
  0 <= 20 /\ r_functions (remote sample_state) !! "fn" = Some 7 /\
  (forall t, clock sample_state <= t <= clock sample_state + 20 ->
     non_terminal (r_status (remote sample_state) "fn" t)) /\
  exists msg s', await_function_deployment "fn" 20 sample_state =
                   (Err (FunctionDeployTimeout msg), s') /\
    remote s' = remote sample_state /\
    exists new, calls s' = app new (CRetrieveFn "fn" :: calls sample_state) /\
      Forall (fun c => c = CUpdateFn "fn" \/ c = CSleep 5) new.
Proof.
  assert (Hw : 0 <= 20) by lia.
  assert (Hf : r_functions (remote sample_state) !! "fn" = Some 7) by reflexivity.
  assert (Hst : forall t, clock sample_state <= t <= clock sample_state + 20 ->
                  non_terminal (r_status (remote sample_state) "fn" t))
    by (intros t _; split; discriminate).
  split; [exact Hw|]. split; [exact Hf|]. split; [exact Hst|].
  exact (await_function_deployment_timeout_no_cancel "fn" 20 sample_state 7 Hw Hf Hst).
Defined.

(** C1 counterexample: function "fn" stays "Deploying" with a budget of
    20 s; the call raises [FunctionDeployTimeout] but no delete of "fn"
    was attempted before it, and "fn" still exists remotely. *)
Lemma await_function_deployment_no_cancel_delete :
  let '(r, s') := await_function_deployment "fn" 20 sample_state in
  (exists msg, r = Err (FunctionDeployTimeout msg)) /\
  ~ In (CDeleteFn "fn") (calls s') /\
  r_functions (remote s') !! "fn" = Some 7.
Proof.
  vm_compute. split; [eexists; reflexivity|]. split; [|reflexivity].
  intros H. repeat (destruct H as [H|H]; [discriminate|]). exact H.
Qed.

(* ------------------------------------------------------------------ *)
(** ** The retry around [upload_and_create_function] *)

Lemma upload_and_create_body_error (prepare : M unit) (upload_and_create : M Function)
    (s s1 s2 : St) (e : exn) :
  prepare s = (Ok tt, s1) -> upload_and_create s1 = (Err e, s2) ->
  upload_and_create_body prepare upload_and_create s = (Err (convert_create_error e), s2).
Proof.
  intros Hp Hu. unfold upload_and_create_body, mbind, M_bind, try_except, raise.
  rewrite Hp, Hu. destruct e; try reflexivity.
  cbn. destruct (Str.contains DUPLICATED_MSG msg); reflexivity.
Qed.

Lemma retried_deploy_error (v : retry_site) (msg : string) :
  retried_exceptions v (FunctionDeployError msg) = true.
Proof. destruct v; reflexivity. Qed.

Lemma not_retried (v : retry_site) (e : exn) :
  not_retry_worthy e -> retried_exceptions v e = false.
Proof.
  intros [(c & m & ->)|(m & -> & _)]; destruct v; reflexivity.
Qed.

Lemma retry_loop_step_retry {A} fuel (fn : M A) ex tries delay md b j hl s s1 e :
  tries <> 0 -> fn s = (Err e, s1) -> ex e = true -> tries - 1 <> 0 -> 0 <= delay ->
  exists s2, _retry_loop (S fuel) fn ex tries delay md b j hl s =
    _retry_loop fuel fn ex (tries - 1)
      (match md with Some m => Z.min (delay * b + j) m | None => delay * b + j end)
      md b j hl s2.
Proof.
  intros H0 Hs He H1 Hd. cbn [_retry_loop].
  destruct (Z.eqb_spec tries 0) as [|_]; [lia|].
  unfold try_except, mbind, M_bind. rewrite Hs, He.
  destruct (Z.eqb_spec (tries - 1) 0) as [|_]; [lia|].
  unfold time_sleep. destruct (Z.ltb_spec delay 0) as [|_]; [lia|].
  destruct hl; cbn; eexists; reflexivity.
Qed.

Lemma retry_loop_step_last {A} fuel (fn : M A) ex tries delay md b j hl s s1 e :
  tries <> 0 -> fn s = (Err e, s1) -> ex e = true -> tries - 1 = 0 ->
  exists s2, _retry_loop (S fuel) fn ex tries delay md b j hl s = (Err e, s2).
Proof.
  intros H0 Hs He H1. cbn [_retry_loop].
  destruct (Z.eqb_spec tries 0) as [|_]; [lia|].
  unfold try_except, mbind, M_bind. rewrite Hs, He.
  destruct (Z.eqb_spec (tries - 1) 0) as [_|]; [|lia].
  destruct hl; cbn; eexists; reflexivity.
Qed.

Lemma retry_loop_step_other {A} fuel (fn : M A) ex tries delay md b j hl s s1 e :
  tries <> 0 -> fn s = (Err e, s1) -> ex e = false ->
  _retry_loop (S fuel) fn ex tries delay md b j hl s = (Err e, s1).
Proof.
  intros H0 Hs He. cbn [_retry_loop].
  destruct (Z.eqb_spec tries 0) as [|_]; [lia|].
  unfold try_except, mbind, M_bind. rewrite Hs, He. reflexivity.
Qed.

Lemma retry_loop_exhausts (v : retry_site) (body : M Function) (e : exn) :
  retried_exceptions v e = true ->
  (forall s, exists s', body s = (Err e, s')) ->
  forall n tries delay s, Z.of_nat (S n) = tries -> 0 <= delay ->
  exists s', site_retry_loop v (S n) tries delay body s = (Err e, s').
Proof.
  intros Hr Hb n. unfold site_retry_loop.
  induction n as [|n IH]; intros tries delay s Hn Hd; destruct (Hb s) as [s1 Hs1].
  - eapply retry_loop_step_last; eauto; lia.
  - edestruct (retry_loop_step_retry (A := Function) (S n)) as [s2 ->]; eauto; try lia.
    apply IH; [lia|]. destruct v; cbn [retry_backoff retry_jitter]; lia.
Qed.

Lemma upload_and_create_function_loop (v : retry_site) (tries : Z) prepare upload_and_create :
  upload_and_create_function v tries prepare upload_and_create =
  site_retry_loop v (Z.to_nat tries) tries (retry_delay v) (site_body v prepare upload_and_create).
Proof. reflexivity. Qed.

Lemma site_body_error (v : retry_site) (prepare : M unit) (upload_and_create : M Function)
    (s s1 s2 : St) (e : exn) :
  prepare s = (Ok tt, s1) -> upload_and_create s1 = (Err e, s2) ->
  site_body v prepare upload_and_create s =
    (Err (match v with FunctionPy => convert_create_error e | OrchestratorPy => e end), s2).
Proof.
  intros Hp Hu. destruct v.
  - exact (upload_and_create_body_error _ _ _ _ _ _ Hp Hu).
  - unfold site_body, orchestrator_upload_and_create_body, mbind, M_bind.
    rewrite Hp. exact Hu.
Qed.

Lemma to_nat_succ (tries : Z) : 1 <= tries -> Z.to_nat tries = S (Z.to_nat (tries - 1)).
Proof. intros H. rewrite <- Z2Nat.inj_succ by lia. f_equal. lia. Qed.

(** C2.  The retry of [function.py], whose [upload_and_create_function]
    [index.py] calls, with at least one try: (1) a creation error whose
    message contains "Function externalId duplicated" is converted to
    [FunctionDeployError] and retried: after the failed attempt the run
    continues as the retry loop with one try less and the next delay;
    (2) at both retry sites, a [MissingAclError] or any other
    [CogniteAPIError] raised by the upload or the creation ends the run
    after that one attempt, with that very error; (3) when every attempt
    fails with the duplicated-id error, the run ends, once the tries are
    used up, with the [FunctionDeployError] carrying that message, not a
    wrapper. *)
Theorem upload_and_create_function_retry_boundary (tries : Z) (prepare : M unit)
    (upload_and_create : M Function) :
  1 <= tries ->
  (forall s s1 s2 msg, prepare s = (Ok tt, s1) ->
     upload_and_create s1 = (Err (CogniteAPIError msg), s2) ->
     Str.contains DUPLICATED_MSG msg = true -> 2 <= tries ->
     exists s3, upload_and_create_function FunctionPy tries prepare upload_and_create s =
       site_retry_loop FunctionPy (Z.to_nat (tries - 1)) (tries - 1)
         (retry_delay FunctionPy * retry_backoff FunctionPy + retry_jitter FunctionPy)
         (site_body FunctionPy prepare upload_and_create) s3) /\
  (forall v s s1 s2 e, prepare s = (Ok tt, s1) -> upload_and_create s1 = (Err e, s2) ->
     not_retry_worthy e ->
     upload_and_create_function v tries prepare upload_and_create s = (Err e, s2)) /\
  (forall msg, Str.contains DUPLICATED_MSG msg = true ->
     (forall s, exists s1, prepare s = (Ok tt, s1)) ->
     (forall s, exists s2, upload_and_create s = (Err (CogniteAPIError msg), s2)) ->
     forall s, exists s', upload_and_create_function FunctionPy tries prepare upload_and_create s =
       (Err (FunctionDeployError msg), s')).
Proof.
  intros Ht. repeat split;
    [intros s s1 s2 msg Hp Hu Hd H2 | intros v s s1 s2 e Hp Hu Hn
    | intros msg Hd Hp Hu s];
    rewrite upload_and_create_function_loop, (to_nat_succ tries Ht).
  - pose proof (site_body_error FunctionPy _ _ _ _ _ _ Hp Hu) as Hb.
    cbn [convert_create_error] in Hb. rewrite Hd in Hb.
    assert (H0 : tries <> 0) by lia. assert (H1 : tries - 1 <> 0) by lia.
    assert (Hdl : 0 <= retry_delay FunctionPy) by (cbn; lia).
    destruct (retry_loop_step_retry (A := Function) (Z.to_nat (tries - 1)) _ _ _
                (retry_delay FunctionPy) None (retry_backoff FunctionPy)
                (retry_jitter FunctionPy) (retry_logging_of FunctionPy) _ _ _
                H0 Hb (retried_deploy_error FunctionPy msg) H1 Hdl) as [s3 Hs3].
    exists s3. unfold site_retry_loop. exact Hs3.
  - pose proof (site_body_error v _ _ _ _ _ _ Hp Hu) as Hb.
    assert (Hc : convert_create_error e = e).
    { destruct Hn as [(c & m & ->)|(m & -> & Hm)]; cbn; [reflexivity|].
      rewrite Hm. reflexivity. }
    unfold site_retry_loop. eapply retry_loop_step_other; [lia | |].
    + rewrite Hb. destruct v; [rewrite Hc|]; reflexivity.
    + apply not_retried. exact Hn.
  - apply retry_loop_exhausts; [apply retried_deploy_error | | lia | cbn; lia].
    intros s0. destruct (Hp s0) as [s1 Hs1]. destruct (Hu s1) as [s2 Hs2].
    exists s2. rewrite (site_body_error FunctionPy _ _ _ _ _ _ Hs1 Hs2).
    cbn [convert_create_error]. rewrite Hd. reflexivity.
Qed.

Lemma upload_and_create_function_retry_boundary_witness :
  1 <= 2 /\
  exists s', upload_and_create_function FunctionPy 2 (mret tt)
    (raise (CogniteAPIError DUPLICATED_MSG)) sample_state =
    (Err (FunctionDeployError DUPLICATED_MSG), s').
Proof.
  split; [lia|].
  apply (proj2 (proj2 (upload_and_create_function_retry_boundary 2 (mret tt)
           (raise (CogniteAPIError DUPLICATED_MSG)) ltac:(lia)))).
  - reflexivity.
  - intros s. exists s. reflexivity.
  - intros s. exists s. reflexivity.
Defined.

(* ------------------------------------------------------------------ *)
(** ** The capability verifiers *)

Lemma set_in_In (a : string) (l : list string) : Access.set_in a l = true <-> In a l.
Proof.
  unfold Access.set_in. rewrite existsb_exists. split.
  - intros (x & Hx & He). apply String.eqb_eq in He. subst. exact Hx.
  - intros H. exists a. split; [exact H | apply String.eqb_refl].
Qed.

Lemma In_all_actions (p : Access.Capability -> bool) (caps : list Access.Capability) act :
  In act (Access.all_actions (List.filter p caps)) <->
  exists c, In c caps /\ p c = true /\ In act (Access.actions c).
Proof.
  unfold Access.all_actions. rewrite in_flat_map. split.
  - intros (c & Hc & Ha). apply filter_In in Hc as [Hc Hp]. eauto.
  - intros (c & Hc & Hp & Ha). exists c. rewrite filter_In. auto.
Qed.

Lemma In_filter_capabilities_actions (caps : list Access.Capability) a act :
  In act (Access.all_actions (Access.filter_capabilities caps a)) <-> grants_action caps a act.
Proof.
  unfold Access.filter_capabilities, grants_action. rewrite In_all_actions.
  split; intros (c & Hc & Hp & Ha); exists c; rewrite ?String.eqb_eq in *; auto.
Qed.

Lemma In_map_set_diff (f : string -> string) (req acts : list string) item :
  In item (map f (Access.set_diff req acts)) <->
  exists a, In a req /\ ~ In a acts /\ item = f a.
Proof.
  unfold Access.set_diff. rewrite in_map_iff. split.
  - intros (a & <- & Ha). apply filter_In in Ha as [Ha Hn].
    exists a. split; [exact Ha|split; [|reflexivity]].
    rewrite <- set_in_In. destruct (Access.set_in a acts); [discriminate | congruence].
  - intros (a & Ha & Hn & ->). exists a. split; [reflexivity|].
    apply filter_In. split; [exact Ha|].
    destruct (Access.set_in a acts) eqn:E; [|reflexivity].
    exfalso. apply Hn. apply set_in_In. exact E.
Qed.

Lemma In_files_all_scope (caps : list Access.Capability) act :
  In act (Access.all_actions
            (List.filter Access.is_all_scope (Access.filter_capabilities caps "filesAcl"))) <->
  grants_all_scope caps "filesAcl" act.
Proof.
  unfold Access.all_actions. rewrite in_flat_map. unfold grants_all_scope. split.
  - intros (c & Hc & Ha). apply filter_In in Hc as [Hc Hs].
    unfold Access.filter_capabilities in Hc. apply filter_In in Hc as [Hc Ha'].
    apply String.eqb_eq in Ha'. eauto 6.
  - intros (c & Hc & Ha & Hs & Hact). exists c. split; [|exact Hact].
    apply filter_In. split; [|exact Hs].
    unfold Access.filter_capabilities. apply filter_In. split; [exact Hc|].
    apply String.eqb_eq. exact Ha.
Qed.

Lemma check_basics_ok (client : Access.AccessClient) caps cred :
  Access.missing_basic_capabilities client = [] -> Access.ac_groups client = Some caps ->
  Access.check_basics_and_retrieve_capabilities client cred = Ok caps.
Proof.
  intros Hb Hg. unfold Access.check_basics_and_retrieve_capabilities.
  rewrite Hb, Hg. reflexivity.
Qed.

Lemma check_basics_missing (client : Access.AccessClient) cred :
  Access.missing_basic_capabilities client <> [] ->
  Access.check_basics_and_retrieve_capabilities client cred =
    Err (MissingAclError cred (Access.missing_basic_capabilities client)).
Proof.
  intros Hb. unfold Access.check_basics_and_retrieve_capabilities.
  destruct (Access.missing_basic_capabilities client); [congruence | reflexivity].
Qed.

Lemma In_all_actions_acl (p : Access.Capability -> bool) (caps : list Access.Capability) a act :
  In act (Access.all_actions (List.filter p (Access.filter_capabilities caps a))) <->
  exists c, In c caps /\ Access.acl c = a /\ p c = true /\ In act (Access.actions c).
Proof.
  rewrite In_all_actions. unfold Access.filter_capabilities. split.
  - intros (c & Hc & Hp & Ha). apply filter_In in Hc as [Hc Hq].
    apply String.eqb_eq in Hq. eauto 6.
  - intros (c & Hc & Hq & Hp & Ha). exists c. rewrite filter_In, String.eqb_eq. auto.
Qed.


Lemma negb_set_in (a : string) l : negb (Access.set_in a l) = true <-> ~ In a l.
Proof.
  rewrite <- set_in_In. destruct (Access.set_in a l); cbn; split; congruence.
Qed.


Lemma dataset_actions_In (caps : list Access.Capability) d act :
  In act (Access.all_actions
            (List.filter (fun c => Access.is_all_scope c || Access.is_ids_scope d c)
               (Access.filter_capabilities caps "datasetsAcl"))) <->
  grants_dataset caps d act.
Proof. rewrite In_all_actions_acl. unfold grants_dataset. split; intros (c & ?); eauto. Qed.


Lemma files_dataset_actions_In (caps : list Access.Capability) d act :
  In act (Access.all_actions
            (List.filter (Access.is_dataset_scope d) (Access.filter_capabilities caps "filesAcl"))) <->
  grants_files_in_dataset caps d act.
Proof. rewrite In_all_actions_acl. unfold grants_files_in_dataset. split; intros (c & ?); eauto. Qed.


Lemma files_item_ds_head (d : Z) (a : string) :
  exists t, Access.files_item_ds d a = String "f" t.
Proof. eexists. reflexivity. Qed.


Lemma In_set_diff (a : string) (req acts : list string) :
  In a (Access.set_diff req acts) <-> In a req /\ ~ In a acts.
Proof.
  unfold Access.set_diff. rewrite filter_In, negb_set_in. tauto.
Qed.

Lemma raise_if_nonempty (L : list string) (cred : string) :
  (if negb (bool_decide (L = [])) then Access.raise_on_missing L cred else Ok tt) =
  (if bool_decide (L = []) then Ok tt else Err (MissingAclError cred L)).
Proof. destruct (bool_decide _); reflexivity. Qed.

Lemma In_files_ds_items (caps : list Access.Capability) (d : Z) item :
  In item (map (Access.files_item_ds d)
             (Access.set_diff
                (Access.set_diff ["READ"; "WRITE"]
                   (Access.all_actions (List.filter Access.is_all_scope
                      (Access.filter_capabilities caps "filesAcl"))))
                (Access.all_actions (List.filter (Access.is_dataset_scope d)
                   (Access.filter_capabilities caps "filesAcl"))))) <->
  exists a, In a ["READ"; "WRITE"] /\ ~ grants_all_scope caps "filesAcl" a /\
            ~ grants_files_in_dataset caps d a /\ item = Access.files_item_ds d a.
Proof.
  rewrite In_map_set_diff. setoid_rewrite In_set_diff. setoid_rewrite In_files_all_scope.
  setoid_rewrite files_dataset_actions_In. split.
  - intros (a & (Ha & Hn) & Hd & ->). eauto 6.
  - intros (a & Ha & Hn & Hd & ->). eauto 6.
Qed.

(** C3 (amended).  Once the basic checks pass and the groups are listed,
    each verifier raises at most one error, listing every missing item of
    the domains it checks: [verify_schedule_creds_capabilities] checks
    functions WRITE and sessions CREATE; [verify_deploy_capabilites]
    checks functions READ and WRITE and files READ and WRITE in the "all"
    scope, and with a data set [d] it lists instead each files action
    granted neither in the "all" scope nor in [d]'s scope, plus the
    datasets READ item (and the OWNER hint when OWNER is not granted
    either) when [d] may not be read, or the datasets OWNER item when [d]
    may be read, is write protected and OWNER is not granted; a data set
    that may be read but does not exist makes it raise [ValueError].
    When a basic check fails, both raise the error listing the basic
    items only, whatever else is missing. *)
Theorem verifiers_list_all_missing (client : Access.AccessClient) (cred : string) :
  (forall caps, Access.missing_basic_capabilities client = [] ->
     Access.ac_groups client = Some caps ->
     exists L,
       Access.verify_schedule_creds_capabilities client cred =
         (if bool_decide (L = []) then Ok tt else Err (MissingAclError cred L)) /\
       forall item, In item L <->
         (item = Access.function_item "WRITE" /\ ~ grants_action caps "functionsAcl" "WRITE") \/
         (item = Access.SESSION_ITEM /\ ~ grants_action caps "sessionsAcl" "CREATE")) /\
  (forall caps, Access.missing_basic_capabilities client = [] ->
     Access.ac_groups client = Some caps ->
     exists L,
       Access.verify_deploy_capabilites client None cred =
         (if bool_decide (L = []) then Ok tt else Err (MissingAclError cred L)) /\
       forall item, In item L <->
         (exists a, In a ["READ"; "WRITE"] /\ ~ grants_action caps "functionsAcl" a /\
                    item = Access.function_item a) \/
         (exists a, In a ["READ"; "WRITE"] /\ ~ grants_all_scope caps "filesAcl" a /\
                    item = Access.files_item_no_ds a)) /\
  (forall caps d, Access.missing_basic_capabilities client = [] ->
     Access.ac_groups client = Some caps ->
     (grants_dataset caps d "READ" -> Access.ac_datasets client !! d = None ->
        exists msg, Access.verify_deploy_capabilites client (Some d) cred = Err (ValueError msg)) /\
     (~ grants_dataset caps d "READ" \/ is_Some (Access.ac_datasets client !! d) ->
      exists L,
       Access.verify_deploy_capabilites client (Some d) cred =
         (if bool_decide (L = []) then Ok tt else Err (MissingAclError cred L)) /\
       forall item, In item L <->
         (exists a, In a ["READ"; "WRITE"] /\ ~ grants_action caps "functionsAcl" a /\
                    item = Access.function_item a) \/
         (exists a, In a ["READ"; "WRITE"] /\ ~ grants_all_scope caps "filesAcl" a /\
                    ~ grants_files_in_dataset caps d a /\ item = Access.files_item_ds d a) \/
         (~ grants_dataset caps d "READ" /\
            (item = "datasetsAcl:READ (scope: 'all' OR 'id: " ++ pretty d ++ "')" \/
             (~ grants_dataset caps d "OWNER" /\
              item = "(If dataset is write protected, you'll also need OWNER)"))) \/
         (grants_dataset caps d "READ" /\ Access.ac_datasets client !! d = Some true /\
          ~ grants_dataset caps d "OWNER" /\
          item = "datasetsAcl:OWNER (scope: 'all' OR 'id: " ++ pretty d ++
                 "'). NB: 'all scope' not recommended!"))) /\
  (Access.missing_basic_capabilities client <> [] ->
     Access.verify_schedule_creds_capabilities client cred =
       Err (MissingAclError cred (Access.missing_basic_capabilities client)) /\
     forall ds, Access.verify_deploy_capabilites client ds cred =
       Err (MissingAclError cred (Access.missing_basic_capabilities client))).
Proof.
  split; [|split; [|split]].
  - intros caps Hb Hg.
    exists (app (Access.missing_function_capabilities caps ["WRITE"])
                (Access.missing_session_capabilities caps)). split.
    + unfold Access.verify_schedule_creds_capabilities. rewrite (check_basics_ok _ _ _ Hb Hg).
      destruct (bool_decide _); reflexivity.
    + intros item. rewrite in_app_iff. unfold Access.missing_function_capabilities.
      rewrite In_map_set_diff. setoid_rewrite In_filter_capabilities_actions.
      unfold Access.missing_session_capabilities.
      rewrite <- (In_filter_capabilities_actions caps "sessionsAcl" "CREATE"),
        <- (set_in_In "CREATE").
      split.
      * intros [(a & Ha & Hn & ->)|Hs].
        -- left. destruct Ha as [<-|[]]. split; [reflexivity | exact Hn].
        -- right. destruct (Access.set_in _ _); cbn in Hs; [destruct Hs|].
           destruct Hs as [<-|[]]. split; [reflexivity | discriminate].
      * intros [[-> Hn]|[-> Hn]].
        -- left. exists "WRITE". split; [left; reflexivity | split; [exact Hn | reflexivity]].
        -- right. destruct (Access.set_in _ _); [congruence | left; reflexivity].
  - intros caps Hb Hg.
    unfold Access.verify_deploy_capabilites. rewrite (check_basics_ok _ _ _ Hb Hg).
    cbn [Access.missing_files_capabilities].
    exists (app (Access.missing_function_capabilities caps ["READ"; "WRITE"])
      (map Access.files_item_no_ds (Access.set_diff ["READ"; "WRITE"]
        (Access.all_actions (List.filter Access.is_all_scope
                               (Access.filter_capabilities caps "filesAcl")))))).
    split; [destruct (bool_decide _); reflexivity|].
    intros item. rewrite in_app_iff. unfold Access.missing_function_capabilities.
    rewrite !In_map_set_diff.
    setoid_rewrite In_filter_capabilities_actions. setoid_rewrite In_files_all_scope.
    reflexivity.
  - intros caps d Hb Hg.
    unfold Access.verify_deploy_capabilites. rewrite (check_basics_ok _ _ _ Hb Hg).
    cbn [Access.missing_files_capabilities].
    pose proof (dataset_actions_In caps d "READ") as DR.
    pose proof (dataset_actions_In caps d "OWNER") as DO.
    rewrite <- set_in_In in DR, DO.
    destruct (Access.set_in "READ" _) eqn:HR; cbn [negb].
    + assert (HRg : grants_dataset caps d "READ") by (apply DR; reflexivity).
      unfold Access.retrieve_dataset_write_protected.
      destruct (Access.ac_datasets client !! d) as [wp|] eqn:Hd.
      * split; [intros _ Hn; discriminate|]. intros _.
        eexists. split; [apply raise_if_nonempty|].
        intros item. rewrite !in_app_iff. unfold Access.missing_function_capabilities.
        rewrite In_map_set_diff, In_files_ds_items.
        setoid_rewrite In_filter_capabilities_actions.
        assert (Hw : In item (if wp && negb (Access.set_in "OWNER" (Access.all_actions
                       (List.filter (fun c => Access.is_all_scope c || Access.is_ids_scope d c)
                          (Access.filter_capabilities caps "datasetsAcl"))))
                      then ["datasetsAcl:OWNER (scope: 'all' OR 'id: " ++ pretty d ++
                            "'). NB: 'all scope' not recommended!"] else []) <->
                     Some wp = Some true /\ ~ grants_dataset caps d "OWNER" /\
                     item = "datasetsAcl:OWNER (scope: 'all' OR 'id: " ++ pretty d ++
                            "'). NB: 'all scope' not recommended!").
        { destruct (Access.set_in "OWNER" _) eqn:HO; destruct wp; cbn;
            [| |split; [intros [<-|[]]; repeat split; [intros H; apply DO in H; discriminate]|
                        intros (_ & _ & ->); left; reflexivity]|]; 
            try (split; [intros []|intros (H & H' & _)]); try discriminate;
            apply H'; apply DO; reflexivity. }
        rewrite Hw. split.
        -- intros [H|[H|H]]; [left; exact H|right; left; exact H|].
           right; right; right. destruct H as (H1 & H2 & H3).
           injection H1 as ->. auto.
        -- intros [H|[H|[(Hn & _)|(_ & H1 & H2 & H3)]]];
             [left; exact H|right; left; exact H|contradiction|].
           right; right. injection H1 as ->. auto.
      * split; [intros _ _; eexists; reflexivity|].
        intros [Hn|Hs]; [contradiction|destruct Hs as [? Hs]; discriminate].
    + assert (HRg : ~ grants_dataset caps d "READ") by (rewrite <- DR; discriminate).
      split; [intros H; contradiction|]. intros _.
      eexists. split; [apply raise_if_nonempty|].
      intros item. rewrite !in_app_iff. unfold Access.missing_function_capabilities.
      rewrite In_map_set_diff, In_files_ds_items.
      setoid_rewrite In_filter_capabilities_actions.
      assert (Hw : In item (if negb (Access.set_in "OWNER" (Access.all_actions
                     (List.filter (fun c => Access.is_all_scope c || Access.is_ids_scope d c)
                        (Access.filter_capabilities caps "datasetsAcl"))))
                    then ["(If dataset is write protected, you'll also need OWNER)"] else []) <->
                   ~ grants_dataset caps d "OWNER" /\
                   item = "(If dataset is write protected, you'll also need OWNER)").
      { destruct (Access.set_in "OWNER" _) eqn:HO; cbn.
        - split; [intros []|]. intros (H & _). exfalso. apply H. apply DO. reflexivity.
        - split; [intros [<-|[]]|intros (_ & ->); left; reflexivity].
          split; [|reflexivity]. intros H. apply DO in H. discriminate. }
      cbn [In]. rewrite Hw. split.
      * intros [H|[H|[[H|[]]|H]]]; [left; exact H|right; left; exact H| |].
        -- right; right; left. split; [exact HRg|left; symmetry; exact H].
        -- right; right; left. split; [exact HRg|right; exact H].
      * intros [H|[H|[(_ & [H|H])|(H & _)]]];
          [left; exact H|right; left; exact H|right; right; left; left; symmetry; exact H
          |right; right; right; exact H|contradiction].
  - intros Hb. split; [|intros ds];
      unfold Access.verify_schedule_creds_capabilities, Access.verify_deploy_capabilites;
      rewrite (check_basics_missing _ _ Hb); reflexivity.
Qed.

(** C3 (counterexample).  For a snapshot missing both files WRITE (all
    scope) and sessions CREATE, neither verifier lists both: the deploy
    verifier lists only the files item and the schedule verifier only the
    sessions item. *)
Lemma verifiers_split_files_and_sessions :
  Access.verify_deploy_capabilites partial_client None "deploy" =
    Err (MissingAclError "deploy" [Access.files_item_no_ds "WRITE"]) /\
  Access.verify_schedule_creds_capabilities partial_client "schedule" =
    Err (MissingAclError "schedule" [Access.SESSION_ITEM]).
Proof. split; vm_compute; reflexivity. Qed.

(* ------------------------------------------------------------------ *)
(** ** Schedule names *)

Lemma lstrip_cases (s : string) :
  Str.lstrip s = s \/ (String.length (Str.lstrip s) < String.length s)%nat.
Proof.
  induction s as [|c r IH]; [left; reflexivity|]. cbn.
  destruct (Str.is_space c); [right|left; reflexivity].
  destruct IH as [->|H]; cbn; lia.
Qed.

Lemma rstrip_length (s : string) : (String.length (Str.rstrip s) <= String.length s)%nat.
Proof.
  induction s as [|c r IH]; [reflexivity|]. cbn.
  destruct (String.eqb (Str.rstrip r) "" && Str.is_space c); cbn; lia.
Qed.

Lemma strip_fixed_lstrip (s : string) : Str.strip s = s -> Str.lstrip s = s.
Proof.
  unfold Str.strip. intros H. destruct (lstrip_cases s) as [E|E]; [exact E|].
  pose proof (rstrip_length (Str.lstrip s)) as L. rewrite H in L. lia.
Qed.

Lemma lstrip_app_colon (x n : string) :
  Str.lstrip x = x -> Str.lstrip (x ++ String ":" n) = x ++ String ":" n.
Proof.
  destruct x as [|c r]; [reflexivity|]. simpl. intros H.
  destruct (Str.is_space c) eqn:E; [|reflexivity].
  destruct (lstrip_cases r) as [E'|E'].
  - rewrite E' in H. exfalso. apply (f_equal String.length) in H. cbn in H. lia.
  - apply (f_equal String.length) in H. cbn in H. lia.
Qed.

Lemma rstrip_app_colon (x n : string) :
  Str.rstrip (x ++ String ":" n) = x ++ String ":" (Str.rstrip n).
Proof.
  induction x as [|c r IH].
  - simpl. destruct (String.eqb _ _); reflexivity.
  - simpl. rewrite IH.
    replace (String.eqb (r ++ String ":" (Str.rstrip n)) "") with false
      by (destruct r; reflexivity).
    reflexivity.
Qed.

Lemma strip_prefixed (x n : string) :
  Str.strip x = x -> Str.strip (x ++ String ":" n) = x ++ String ":" (Str.rstrip n).
Proof.
  intros H. unfold Str.strip.
  rewrite (lstrip_app_colon _ _ (strip_fixed_lstrip _ H)). apply rstrip_app_colon.
Qed.

Lemma append_cancel_r (a b s : string) : a ++ s = b ++ s -> a = b.
Proof.
  intros H. assert (L : String.length a = String.length b).
  { apply (f_equal String.length) in H. rewrite !string_length_append in H. lia. }
  revert b H L. induction a as [|c r IH]; intros [|d q] H L; cbn in *; try lia.
  - reflexivity.
  - injection H as -> H. f_equal. apply IH; [exact H | lia].
Qed.

Lemma result_bind_ok {A B} (r : result A) (f : A -> result B) (b : B) :
  Schedules.result_bind r f = Ok b -> exists a, r = Ok a /\ f a = Ok b.
Proof. destruct r as [a|e]; cbn; [eauto | discriminate]. Qed.

Lemma config_schedule_named (cron_ok : string -> bool) (x : string) (i : nat)
    (kvs : list (string * Schedules.yaml)) (n : string) (c : Schedules.ScheduleConfig) :
  Schedules.get "name" kvs = Some (Schedules.YStr n) ->
  Schedules.config_schedule cron_ok x i (Schedules.YMap kvs) = Ok c ->
  Schedules.sc_name c = Str.strip (x ++ String ":" n).
Proof.
  intros Hn. unfold Schedules.config_schedule, Schedules.get_or. rewrite Hn.
  unfold Schedules.ScheduleConfig_validate. cbn [Schedules.non_empty_string].
  change (":" ++ n) with (String ":" n).
  destruct (String.eqb (Str.strip (x ++ String ":" n)) "") eqn:E; [discriminate|].
  cbn [Schedules.result_bind].
  intros H. apply result_bind_ok in H as (cr & _ & H).
  destruct (negb (cron_ok cr)); [discriminate|].
  apply result_bind_ok in H as (dt & _ & H). injection H as <-. reflexivity.
Qed.

Lemma parse_obj_name (cron_ok : string -> bool) (kvs : list (string * Schedules.yaml))
    (n : string) (s : Schedules.FunctionSchedule) :
  Schedules.get "name" kvs = Some (Schedules.YStr n) ->
  Schedules.parse_obj cron_ok (Schedules.YMap kvs) = Ok s ->
  Schedules.fs_name s = Str.strip n.
Proof.
  intros Hn. unfold Schedules.parse_obj, Schedules.parse_fields. rewrite Hn.
  cbn [Schedules.non_empty_string].
  destruct (String.eqb (Str.strip n) "") eqn:E; [discriminate|]. cbn [Schedules.result_bind].
  intros H. apply result_bind_ok in H as (d & _ & H).
  apply result_bind_ok in H as (c & _ & H).
  destruct (negb (cron_ok c)); [discriminate|].
  apply result_bind_ok in H as (dt & _ & H). injection H as <-. reflexivity.
Qed.

(** C7 (amended).  In [config.FunctionConfig.schedules], for two external
    ids as [FunctionConfig] validates them (stripped [NonEmptyString]s)
    that differ, two schedule items with the same [name] that both pass
    [ScheduleConfig]'s validation get the names [external_id + ":" +
    name] (stripped), and these differ.  The [configs.py] path does not
    prefix: the name [deploy_schedules] sends for a schedule parsed by
    [FunctionSchedule.parse_obj] is the stripped [name] of the file,
    whatever the function. *)
Theorem schedule_name_scoping (x1 x2 : string) (i1 i2 : nat)
    (kvs1 kvs2 : list (string * Schedules.yaml)) (n : string) :
  Str.strip x1 = x1 -> Str.strip x2 = x2 -> x1 <> x2 ->
  Schedules.get "name" kvs1 = Some (Schedules.YStr n) ->
  Schedules.get "name" kvs2 = Some (Schedules.YStr n) ->
  (forall cron_ok c1 c2,
     Schedules.config_schedule cron_ok x1 i1 (Schedules.YMap kvs1) = Ok c1 ->
     Schedules.config_schedule cron_ok x2 i2 (Schedules.YMap kvs2) = Ok c2 ->
     Schedules.sc_name c1 = x1 ++ ":" ++ Str.rstrip n /\
     Schedules.sc_name c2 = x2 ++ ":" ++ Str.rstrip n /\
     Schedules.sc_name c1 <> Schedules.sc_name c2) /\
  (forall cron_ok s (fn : Function),
     Schedules.parse_obj cron_ok (Schedules.YMap kvs1) = Ok s ->
     Schedules.deploy_schedules fn [s] = [(fn_id fn, Str.strip n)]).
Proof.
  intros H1 H2 Hx Hn1 Hn2. split.
  - intros cron_ok c1 c2 Hc1 Hc2.
    rewrite (config_schedule_named _ _ _ _ _ _ Hn1 Hc1), (config_schedule_named _ _ _ _ _ _ Hn2 Hc2).
    rewrite (strip_prefixed _ _ H1), (strip_prefixed _ _ H2).
    split; [reflexivity|]. split; [reflexivity|].
    intros E. apply Hx. exact (append_cancel_r _ _ _ E).
  - intros cron_ok s fn Hp. cbn. rewrite (parse_obj_name _ _ _ _ Hn1 Hp). reflexivity.
Qed.

Lemma schedule_name_scoping_witness :
  Str.strip "fa" = "fa" /\ Str.strip "fb" = "fb" /\ "fa" <> "fb" /\
  Schedules.get "name" daily_item = Some (Schedules.YStr "daily") /\
  Schedules.config_schedule sample_cron_is_valid "fa" 0 (Schedules.YMap daily_item) =
    Ok {| Schedules.sc_name := "fa:daily"; Schedules.sc_cron := "0 0 * * *";
          Schedules.sc_data := None |} /\
  Schedules.config_schedule sample_cron_is_valid "fb" 1 (Schedules.YMap daily_item) =
    Ok {| Schedules.sc_name := "fb:daily"; Schedules.sc_cron := "0 0 * * *";
          Schedules.sc_data := None |} /\
  "fa:daily" = "fa" ++ ":" ++ Str.rstrip "daily" /\ "fb:daily" = "fb" ++ ":" ++ Str.rstrip "daily" /\
  "fa:daily" <> "fb:daily".
Proof.
  assert (Ha : Schedules.config_schedule sample_cron_is_valid "fa" 0 (Schedules.YMap daily_item) =
    Ok {| Schedules.sc_name := "fa:daily"; Schedules.sc_cron := "0 0 * * *";
          Schedules.sc_data := None |}) by (vm_compute; reflexivity).
  assert (Hb : Schedules.config_schedule sample_cron_is_valid "fb" 1 (Schedules.YMap daily_item) =
    Ok {| Schedules.sc_name := "fb:daily"; Schedules.sc_cron := "0 0 * * *";
          Schedules.sc_data := None |}) by (vm_compute; reflexivity).
  split; [reflexivity|]. split; [reflexivity|]. split; [discriminate|]. split; [reflexivity|].
  split; [exact Ha|]. split; [exact Hb|].
  exact (proj1 (schedule_name_scoping "fa" "fb" 0 1 daily_item daily_item "daily"
                  eq_refl eq_refl ltac:(discriminate) eq_refl eq_refl)
               sample_cron_is_valid _ _ Ha Hb).
Defined.

(** C7 (counterexample).  Through [schedule.deploy_schedules], a schedule
    named "daily" is sent under the same name for two functions with
    different external ids. *)
Lemma deploy_schedules_same_name :
  fn_external_id function_a <> fn_external_id function_b /\
  map snd (Schedules.deploy_schedules function_a [daily]) =
  map snd (Schedules.deploy_schedules function_b [daily]).
Proof. split; [discriminate | reflexivity]. Qed.

(* ------------------------------------------------------------------ *)
(** ** The schedule file *)

Lemma result_map_ok {A B} (f : A -> result B) (l : list A) (ys : list B) :
  Schedules.result_map f l = Ok ys -> forall x, In x l -> exists y, f x = Ok y.
Proof.
  revert ys. induction l as [|a l IH]; intros ys H x Hx; [destruct Hx|].
  cbn in H. apply result_bind_ok in H as (b & Hb & H).
  apply result_bind_ok in H as (bs & Hbs & _).
  destruct Hx as [<-|Hx]; [eauto | exact (IH _ Hbs x Hx)].
Qed.

(** C8 (amended).  A given schedule file that does not exist, or whose
    content loads to a falsy value (empty file, empty list), yields no
    schedules, clears [schedule_file] and logs one warning.  A file that
    is not valid YAML fails the validation with the YAML error, and so
    does a loaded value that is not iterable or has an entry
    [FunctionSchedule.parse_obj] rejects. *)
Theorem verify_schedule_file_outcomes (cron_ok : string -> bool)
    (fs : gmap string Schedules.yaml_doc) (folder file : string) :
  let path := Schedules.path_join folder file in
  let run := Schedules.verify_schedule_file_and_parse cron_ok fs folder (Some file) in
  (fs !! path = None ->
     run = (Ok (None, []), ["Ignoring given schedule file '" ++ file ++
                             "', path does not exist: " ++ path])) /\
  (forall v, fs !! path = Some (Schedules.Doc v) -> Schedules.truthy v = false ->
     run = (Ok (None, []), ["Given schedule file '" ++ file ++
                             "' appears empty and was ignored"])) /\
  (forall why, fs !! path = Some (Schedules.Malformed why) ->
     run = (Err (YAMLError why), [])) /\
  (forall v e, fs !! path = Some (Schedules.Doc v) -> Schedules.truthy v = true ->
     Schedules.py_iter v = Err e -> run = (Err e, [])) /\
  (forall v items y e, fs !! path = Some (Schedules.Doc v) -> Schedules.truthy v = true ->
     Schedules.py_iter v = Ok items -> In y items -> Schedules.parse_obj cron_ok y = Err e ->
     exists e', run = (Err e', [])).
Proof.
  cbv zeta. unfold Schedules.verify_schedule_file_and_parse.
  repeat split.
  - intros H. rewrite H. reflexivity.
  - intros v H Ht. rewrite H, Ht. reflexivity.
  - intros why H. rewrite H. reflexivity.
  - intros v e H Ht Hi. rewrite H, Ht, Hi. reflexivity.
  - intros v items y e H Ht Hi Hy He. rewrite H, Ht, Hi. cbn [Schedules.result_bind].
    destruct (Schedules.result_map (Schedules.parse_obj cron_ok) items) as [ys|e'] eqn:E.
    + destruct (result_map_ok _ _ _ E y Hy) as [z Hz]. congruence.
    + exists e'. reflexivity.
Qed.

(** C8 (counterexample).  A schedule file that fails to parse, or that
    holds an entry that is not a schedule, is not treated as "no
    schedules": the validation fails and no warning is logged. *)
Lemma schedule_file_parse_failure_is_fatal :
  Schedules.verify_schedule_file_and_parse (fun _ => true) malformed_fs "f" (Some "s.yaml") =
    (Err (YAMLError "mapping values are not allowed here"), []) /\
  Schedules.verify_schedule_file_and_parse (fun _ => true) bad_entry_fs "f" (Some "s.yaml") =
    (Err (ValidationError "value is not a valid dict"), []).
Proof. split; vm_compute; reflexivity. Qed.

(* ------------------------------------------------------------------ *)
(** ** [temporary_chdir] *)

(** C9.  When the working directory exists and [path] is a
    directory, [temporary_chdir path body] runs [body] in [path]; if the
    previous working directory still exists when [body] ends, it returns
    [body]'s result, raised or not, in that directory, with the directories
    as [body] left them.  If it no longer exists, the restoring [chdir]
    raises, its error replaces [body]'s and the process stays in the
    directory [body] ended in.  If entering fails ([getcwd] or [chdir
    path]), the error is raised and the process is unchanged. *)
Theorem temporary_chdir_restores {A} (path : string) (body : Chdir.PM A) (p : Chdir.Proc) :
  (Chdir.cwd p ∈ Chdir.dirs p -> path ∈ Chdir.dirs p ->
   forall r p3, body {| Chdir.cwd := path; Chdir.dirs := Chdir.dirs p |} = (r, p3) ->
   (Chdir.cwd p ∈ Chdir.dirs p3 ->
      Chdir.temporary_chdir path body p =
        (r, {| Chdir.cwd := Chdir.cwd p; Chdir.dirs := Chdir.dirs p3 |})) /\
   (Chdir.cwd p ∉ Chdir.dirs p3 ->
      Chdir.temporary_chdir path body p = (Err (OSError "FileNotFoundError"), p3))) /\
  (Chdir.cwd p ∉ Chdir.dirs p ->
     Chdir.temporary_chdir path body p = (Err (OSError "FileNotFoundError"), p)) /\
  (path ∉ Chdir.dirs p ->
     Chdir.temporary_chdir path body p = (Err (OSError "FileNotFoundError"), p)).
Proof.
  unfold Chdir.temporary_chdir, Chdir.getcwd, Chdir.chdir. split; [|split].
  - intros Hc Hp r p3 Hb.
    rewrite (decide_True _ _ Hc), (decide_True _ _ Hp), Hb. cbn. split.
    + intros H3. rewrite (decide_True _ _ H3). reflexivity.
    + intros H3. rewrite (decide_False _ _ H3). reflexivity.
  - intros Hc. rewrite (decide_False _ _ Hc). reflexivity.
  - intros Hp. destruct (decide (Chdir.cwd p ∈ Chdir.dirs p)); [|reflexivity].
    rewrite (decide_False _ _ Hp). reflexivity.
Qed.

(* ================================================================== *)
(** * Further properties of the code *)

(* ------------------------------------------------------------------ *)
(** ** [utils._retry] *)

Lemma retry_loop_fail_step {A} fuel (fn : M A) ex tries delay md b j lg s s1 e :
  tries <> 0 -> fn s = (Err e, s1) -> ex e = true -> 0 <= delay ->
  _retry_loop (S fuel) fn ex tries delay md b j lg s =
  let s2 := snd (retry_error_log lg s1) in
  if tries - 1 =? 0 then (Err e, s2)
  else _retry_loop fuel fn ex (tries - 1) (next_delay md b j delay) md b j lg
         (advance delay (add_call (CSleep delay) (snd (retry_warning_log lg delay s2)))).
Proof.
  intros H0 Hs He Hd. cbn [_retry_loop].
  destruct (Z.eqb_spec tries 0) as [|_]; [lia|].
  unfold try_except, mbind, M_bind. rewrite Hs, He.
  unfold time_sleep. destruct (Z.ltb_spec delay 0) as [|_]; [lia|].
  destruct (tries - 1 =? 0); destruct lg; reflexivity.
Qed.

Lemma next_delay_nonneg (md : option Z) (b j d : Z) :
  0 <= b -> 0 <= j -> (forall m, md = Some m -> 0 <= m) -> 0 <= d ->
  0 <= next_delay md b j d.
Proof.
  intros Hb Hj Hm Hd. pose proof (Z.mul_nonneg_nonneg d b Hd Hb).
  unfold next_delay. destruct md as [m|]; [specialize (Hm m eq_refl)|]; lia.
Qed.

(** A body that fails every time, leaving the state as it is, with
    nonnegative delays: the run with [S n] tries sleeps the [n] delays of
    [retry_delays]. *)
Lemma retry_loop_failing_run {A} (fn : M A) ex e md b j lg :
  ex e = true -> (forall s, fn s = (Err e, s)) ->
  0 <= b -> 0 <= j -> (forall m, md = Some m -> 0 <= m) ->
  forall n tries delay s, Z.of_nat (S n) = tries -> 0 <= delay ->
  exists s', _retry_loop (S n) fn ex tries delay md b j lg s = (Err e, s') /\
    calls s' = app (rev (map CSleep (retry_delays n delay md b j))) (calls s) /\
    clock s' = clock s + fold_right Z.add 0 (retry_delays n delay md b j) /\
    remote s' = remote s /\
    List.length (log s') = (List.length (log s) +
      match lg with NoLogger => 0 | UtilsLogger => 2 * n + 1 | PyPILogger => n end)%nat.
Proof.
  intros He Hf Hb Hj Hm n. induction n as [|n IH]; intros tries delay s Hn Hd;
    (assert (H0 : tries <> 0) by lia);
    rewrite (retry_loop_fail_step _ _ _ _ _ _ _ _ _ _ _ _ H0 (Hf s) He Hd); cbv zeta.
  - destruct (Z.eqb_spec (tries - 1) 0) as [_|]; [|lia].
    eexists. split; [reflexivity|]. destruct lg; cbn; repeat split; lia.
  - destruct (Z.eqb_spec (tries - 1) 0) as [|_]; [lia|].
    assert (Hn' : Z.of_nat (S n) = tries - 1) by lia.
    pose proof (next_delay_nonneg md b j delay Hb Hj Hm Hd) as Hd'.
    destruct (IH (tries - 1) (next_delay md b j delay)
                (advance delay (add_call (CSleep delay)
                   (retry_warning_log lg delay (retry_error_log lg s).2).2)) Hn' Hd')
      as (s' & Hr & Hc & Hk & Hm' & Hl).
    exists s'. rewrite Hr. split; [reflexivity|].
    cbn [retry_delays map rev]. rewrite Hc, Hk, Hm', Hl.
    destruct lg; cbn; rewrite <- ?app_assoc; cbn; repeat split; lia.
Qed.

Lemma retry_delays_bounded (n : nat) (delay m b j : Z) :
  forall d, In d (retry_delays n delay (Some m) b j) -> d <= Z.max delay m.
Proof.
  revert delay. induction n as [|n IH]; intros delay d Hd; [destruct Hd|].
  destruct Hd as [<-|Hd]; [lia|].
  apply IH in Hd. unfold next_delay in Hd. lia.
Qed.

(** [_retry] with a body that fails every time with a retried exception
    and has no effect of its own on the state, with [tries >= 1] and
    nonnegative [delay], [backoff], [jitter] and [max_delay] (so that no
    sleep is given a negative length): the run raises that exception
    after [tries] attempts, having slept exactly [tries - 1] times, the
    delays [delay], [delay * backoff + jitter], ... each capped by
    [max_delay]; the clock moves by their sum, the remote service is
    untouched, and [utils._retry] with a logger logs two lines per retry
    and one for the last attempt, the PyPI loop one line per retry. *)
Theorem retry_always_failing {A} (fn : M A) ex e tries delay md b j lg (s : St) :
  ex e = true -> (forall s, fn s = (Err e, s)) -> 1 <= tries ->
  0 <= delay -> 0 <= b -> 0 <= j -> (forall m, md = Some m -> 0 <= m) ->
  exists s', _retry fn ex tries delay md b j lg s = (Err e, s') /\
    calls s' = app (rev (map CSleep (retry_delays (Z.to_nat tries - 1) delay md b j)))
                   (calls s) /\
    clock s' = clock s + fold_right Z.add 0 (retry_delays (Z.to_nat tries - 1) delay md b j) /\
    remote s' = remote s /\
    List.length (log s') = (List.length (log s) +
      match lg with
      | NoLogger => 0 | UtilsLogger => 2 * Z.to_nat tries - 1 | PyPILogger => Z.to_nat tries - 1
      end)%nat.
Proof.
  intros He Hf Ht Hd Hb Hj Hm. unfold _retry.
  replace (Z.to_nat tries - 1)%nat with (Z.to_nat (tries - 1)) by lia.
  rewrite (to_nat_succ tries Ht).
  edestruct (retry_loop_failing_run fn ex e md b j lg He Hf Hb Hj Hm (Z.to_nat (tries - 1))
               tries delay s) as (s' & Hr & Hc & Hk & Hm' & Hl); [lia|exact Hd|].
  exists s'.
  split; [exact Hr|]. split; [exact Hc|]. split; [exact Hk|]. split; [exact Hm'|].
  rewrite Hl. destruct lg; lia.
Qed.

Lemma retry_always_failing_witness :
  retried_exceptions FunctionPy (FunctionDeployError "x") = true /\
  (forall s, (raise (FunctionDeployError "x") : M Function) s = (Err (FunctionDeployError "x"), s)) /\
  1 <= 5 /\ 0 <= 2 /\ 0 <= 1 /\ 0 <= 2 /\ (forall m : Z, None = Some m -> 0 <= m) /\
  exists s', _retry (raise (FunctionDeployError "x") : M Function) (retried_exceptions FunctionPy)
               5 2 None 1 2 PyPILogger sample_state = (Err (FunctionDeployError "x"), s') /\
    calls s' = app (rev (map CSleep (retry_delays (Z.to_nat 5 - 1) 2 None 1 2))) (calls sample_state) /\
    clock s' = clock sample_state + fold_right Z.add 0 (retry_delays (Z.to_nat 5 - 1) 2 None 1 2) /\
    remote s' = remote sample_state /\
    List.length (log s') = (List.length (log sample_state) + (Z.to_nat 5 - 1))%nat.
Proof.
  assert (Hm : forall m : Z, None = Some m -> 0 <= m) by discriminate.
  split; [reflexivity|]. split; [intros s; reflexivity|].
  split; [lia|]. split; [lia|]. split; [lia|]. split; [lia|]. split; [exact Hm|].
  apply (retry_always_failing (raise (FunctionDeployError "x")) (retried_exceptions FunctionPy)
           (FunctionDeployError "x") 5 2 None 1 2 PyPILogger sample_state);
    [reflexivity | intros s; reflexivity | lia | lia | lia | lia | exact Hm].
Defined.

(** With [max_delay] set, nonnegative parameters and a body as above, no
    sleep of such a run is longer than the larger of the initial [delay]
    and [max_delay]. *)
Theorem retry_sleeps_capped {A} (fn : M A) ex e tries delay m b j lg (s : St) :
  ex e = true -> (forall s, fn s = (Err e, s)) -> 1 <= tries ->
  0 <= delay -> 0 <= m -> 0 <= b -> 0 <= j ->
  exists s', _retry fn ex tries delay (Some m) b j lg s = (Err e, s') /\
    forall d, In (CSleep d) (calls s') -> In (CSleep d) (calls s) \/ d <= Z.max delay m.
Proof.
  intros He Hf Ht Hd Hm Hb Hj. unfold _retry. rewrite (to_nat_succ tries Ht).
  assert (Hm' : forall m', Some m = Some m' -> 0 <= m') by (intros m' [= <-]; exact Hm).
  edestruct (retry_loop_failing_run fn ex e (Some m) b j lg He Hf Hb Hj Hm' (Z.to_nat (tries - 1))
               tries delay s) as (s' & Hr & Hc & _); [lia|exact Hd|].
  exists s'. split; [exact Hr|]. intros d Hin. rewrite Hc, in_app_iff in Hin.
  destruct Hin as [Hin|Hin]; [right|left; exact Hin].
  apply in_rev, in_map_iff in Hin as (d' & [= ->] & Hd').
  exact (retry_delays_bounded _ _ _ _ _ _ Hd').
Qed.

Lemma retry_sleeps_capped_witness :
  retried_exceptions OrchestratorPy (FunctionDeployError "x") = true /\
  (forall s, (raise (FunctionDeployError "x") : M Function) s = (Err (FunctionDeployError "x"), s)) /\
  1 <= 4 /\ 0 <= 5 /\ 0 <= 12 /\ 0 <= 2 /\ 0 <= 0 /\
  exists s', _retry (raise (FunctionDeployError "x") : M Function)
               (retried_exceptions OrchestratorPy) 4 5 (Some 12) 2 0 UtilsLogger sample_state =
             (Err (FunctionDeployError "x"), s') /\
    forall d, In (CSleep d) (calls s') -> In (CSleep d) (calls sample_state) \/ d <= Z.max 5 12.
Proof.
  split; [reflexivity|]. split; [intros s; reflexivity|].
  split; [lia|]. split; [lia|]. split; [lia|]. split; [lia|]. split; [lia|].
  apply (retry_sleeps_capped (raise (FunctionDeployError "x")) (retried_exceptions OrchestratorPy)
           (FunctionDeployError "x") 4 5 12 2 0 UtilsLogger sample_state);
    [reflexivity | intros s; reflexivity | lia | lia | lia | lia | lia].
Defined.

(** The first attempt of [_retry]: with [tries = 0] the body is not run
    and [None] is returned; with [tries >= 1] a successful body's value is
    returned at once (no log, no sleep), and an exception that is not
    retried is raised at once. *)
Theorem retry_first_attempt {A} (fn : M A) ex tries delay md b j hl (s : St) :
  (tries = 0 -> _retry fn ex tries delay md b j hl s = (Ok None, s)) /\
  (forall a s1, 1 <= tries -> fn s = (Ok a, s1) ->
     _retry fn ex tries delay md b j hl s = (Ok (Some a), s1)) /\
  (forall e s1, 1 <= tries -> fn s = (Err e, s1) -> ex e = false ->
     _retry fn ex tries delay md b j hl s = (Err e, s1)).
Proof.
  unfold _retry. split; [|split].
  - intros ->. reflexivity.
  - intros a s1 Ht Hs. rewrite (to_nat_succ tries Ht). cbn [_retry_loop].
    destruct (Z.eqb_spec tries 0) as [|_]; [lia|].
    unfold try_except, mbind, M_bind. rewrite Hs. reflexivity.
  - intros e s1 Ht Hs He. rewrite (to_nat_succ tries Ht).
    apply (retry_loop_step_other _ _ _ _ _ _ _ _ _ _ _ e); [lia | exact Hs | exact He].
Qed.

(* ------------------------------------------------------------------ *)
(** ** [access.py] *)

(** [missing_basic_capabilities] is empty exactly when the token
    inspection succeeds and lists both projects and capabilities; when it
    is not empty its last item is the warning that more may be missing,
    and when the inspection itself fails both basic ACLs are listed. *)
Theorem missing_basic_capabilities_cases (client : Access.AccessClient) :
  (Access.missing_basic_capabilities client = [] <-> Access.ac_token client = Some (true, true)) /\
  (Access.missing_basic_capabilities client <> [] ->
     last (Access.missing_basic_capabilities client) = Some Access.MISSING_ACLS_WARNING) /\
  (Access.ac_token client = None ->
     In Access.ACL_PROJECT_LIST (Access.missing_basic_capabilities client) /\
     In Access.ACL_GROUPS_LIST (Access.missing_basic_capabilities client)).
Proof.
  unfold Access.missing_basic_capabilities.
  destruct (Access.ac_token client) as [[p c]|]; [|split; [split; discriminate|]].
  - destruct p, c; cbn;
      (destruct (Access.ac_groups client); repeat split; try discriminate; try reflexivity;
       try (intros H; congruence); try (intros H; exfalso; congruence)).
  - split; [intros _; reflexivity|]. intros _. cbn; auto.
Qed.

(** [missing_files_capabilities] with a data set, when the credentials
    may not read it: the data set is not looked up (the result is the
    same whatever the service holds), nothing is raised, and the missing
    datasets READ item is listed. *)
Theorem missing_files_without_dataset_read (caps : list Access.Capability)
    (client client' : Access.AccessClient) (d : Z) :
  ~ grants_dataset caps d "READ" ->
  Access.missing_files_capabilities caps client (Some d) =
    Access.missing_files_capabilities caps client' (Some d) /\
  exists l, Access.missing_files_capabilities caps client (Some d) = Ok l /\
    In ("datasetsAcl:READ (scope: 'all' OR 'id: " ++ pretty d ++ "')") l.
Proof.
  intros Hr. rewrite <- dataset_actions_In, <- negb_set_in in Hr.
  cbn [Access.missing_files_capabilities]. rewrite Hr. split; [reflexivity|].
  eexists. split; [reflexivity|]. apply in_app_iff. right. left. reflexivity.
Qed.

Lemma missing_files_without_dataset_read_witness :
  ~ grants_dataset [] 5 "READ" /\
  Access.missing_files_capabilities [] dataset_client (Some 5) =
    Access.missing_files_capabilities [] partial_client (Some 5) /\
  exists l, Access.missing_files_capabilities [] dataset_client (Some 5) = Ok l /\
    In ("datasetsAcl:READ (scope: 'all' OR 'id: " ++ pretty 5 ++ "')") l.
Proof.
  assert (H : ~ grants_dataset [] 5 "READ") by (intros (c & [] & _)).
  split; [exact H|].
  exact (missing_files_without_dataset_read [] dataset_client partial_client 5 H).
Defined.

(** [missing_files_capabilities] with a data set the credentials may
    read: the data set is looked up; if it does not exist a [ValueError]
    is raised, otherwise the OWNER item is listed exactly when the data
    set is write protected and OWNER is not granted for it. *)
Theorem missing_files_dataset_lookup (caps : list Access.Capability)
    (client : Access.AccessClient) (d : Z) :
  grants_dataset caps d "READ" ->
  (Access.ac_datasets client !! d = None ->
     exists msg, Access.missing_files_capabilities caps client (Some d) = Err (ValueError msg)) /\
  (forall wp, Access.ac_datasets client !! d = Some wp ->
     exists l, Access.missing_files_capabilities caps client (Some d) = Ok l /\
       (In ("datasetsAcl:OWNER (scope: 'all' OR 'id: " ++ pretty d ++
            "'). NB: 'all scope' not recommended!") l <->
        wp = true /\ ~ grants_dataset caps d "OWNER")).
Proof.
  intros Hr. rewrite <- dataset_actions_In, <- set_in_In in Hr.
  cbn [Access.missing_files_capabilities]. rewrite Hr. cbn [negb].
  unfold Access.retrieve_dataset_write_protected. split.
  - intros H. rewrite H. eexists. reflexivity.
  - intros wp H. rewrite H. eexists. split; [reflexivity|].
    rewrite in_app_iff, <- dataset_actions_In, <- negb_set_in. split.
    + intros [Hi|Hi].
      * exfalso. apply in_map_iff in Hi as (a & Ha & _).
        destruct (files_item_ds_head d a) as [t Ht]. rewrite Ht in Ha. discriminate.
      * destruct (wp && negb (Access.set_in "OWNER" _)) eqn:E; [|destruct Hi].
        apply andb_true_iff in E. tauto.
    + intros [-> Ho]. right. rewrite Ho. left. reflexivity.
Qed.

Lemma missing_files_dataset_lookup_witness :
  grants_dataset [cap_all "datasetsAcl" ["READ"]] 5 "READ" /\
  (forall wp, Access.ac_datasets dataset_client !! 5 = Some wp ->
     exists l, Access.missing_files_capabilities [cap_all "datasetsAcl" ["READ"]]
                 dataset_client (Some 5) = Ok l /\
       (In ("datasetsAcl:OWNER (scope: 'all' OR 'id: " ++ pretty 5 ++
            "'). NB: 'all scope' not recommended!") l <->
        wp = true /\ ~ grants_dataset [cap_all "datasetsAcl" ["READ"]] 5 "OWNER")).
Proof.
  assert (H : grants_dataset [cap_all "datasetsAcl" ["READ"]] 5 "READ").
  { exists (cap_all "datasetsAcl" ["READ"]). cbn. auto 6. }
  split; [exact H|].
  exact (proj2 (missing_files_dataset_lookup [cap_all "datasetsAcl" ["READ"]] dataset_client 5 H)).
Defined.

Lemma files_item_ds_inj (d : Z) (a b : string) :
  Access.files_item_ds d a = Access.files_item_ds d b -> a = b.
Proof.
  unfold Access.files_item_ds. simpl. intros H.
  repeat (injection H as H). exact (append_cancel_r a b _ H).
Qed.

(** [missing_files_capabilities] with a data set, whenever it returns a
    list: files READ or WRITE is listed with the data set scope exactly
    when it is granted neither in the "all" scope nor in that data set's
    scope, and no other files item is listed in that form. *)
Theorem missing_files_dataset_items (caps : list Access.Capability)
    (client : Access.AccessClient) (d : Z) (l : list string) :
  Access.missing_files_capabilities caps client (Some d) = Ok l ->
  forall a, In (Access.files_item_ds d a) l <->
    In a ["READ"; "WRITE"] /\ ~ grants_all_scope caps "filesAcl" a /\
    ~ grants_files_in_dataset caps d a.
Proof.
  intros H a.
  assert (Hm : In (Access.files_item_ds d a) l <->
               In (Access.files_item_ds d a)
                 (map (Access.files_item_ds d)
                    (Access.set_diff
                       (Access.set_diff ["READ"; "WRITE"]
                          (Access.all_actions (List.filter Access.is_all_scope
                             (Access.filter_capabilities caps "filesAcl"))))
                       (Access.all_actions (List.filter (Access.is_dataset_scope d)
                          (Access.filter_capabilities caps "filesAcl")))))).
  { cbn [Access.missing_files_capabilities] in H.
    destruct (negb (Access.set_in "READ" _)).
    - injection H as <-. rewrite in_app_iff. split; [|tauto].
      intros [Hi|Hi]; [exact Hi|]. exfalso.
      destruct (files_item_ds_head d a) as [t Ht]. rewrite Ht in Hi.
      destruct Hi as [Hi|Hi]; [discriminate|].
      destruct (negb (Access.set_in "OWNER" _)); cbn in Hi; intuition discriminate.
    - destruct (Access.retrieve_dataset_write_protected client d) as [wp|e]; [|discriminate].
      injection H as <-. rewrite in_app_iff. split; [|tauto].
      intros [Hi|Hi]; [exact Hi|]. exfalso.
      destruct (files_item_ds_head d a) as [t Ht]. rewrite Ht in Hi.
      destruct (_ && _); cbn in Hi; intuition discriminate. }
  rewrite Hm, In_map_set_diff. split.
  - intros (b & Hb & Hn & He). apply files_item_ds_inj in He. subst b.
    rewrite In_set_diff, In_files_all_scope in Hb. rewrite files_dataset_actions_In in Hn.
    tauto.
  - intros (Hr & Ha & Hd). exists a. rewrite In_set_diff, In_files_all_scope,
      files_dataset_actions_In. tauto.
Qed.

Lemma missing_files_dataset_items_witness :
  Access.missing_files_capabilities files_ds_caps dataset_client (Some 5) =
    Ok [Access.files_item_ds 5 "WRITE";
        "datasetsAcl:READ (scope: 'all' OR 'id: " ++ pretty 5 ++ "')";
        "(If dataset is write protected, you'll also need OWNER)"] /\
  forall a, In (Access.files_item_ds 5 a)
              [Access.files_item_ds 5 "WRITE";
               "datasetsAcl:READ (scope: 'all' OR 'id: " ++ pretty 5 ++ "')";
               "(If dataset is write protected, you'll also need OWNER)"] <->
    In a ["READ"; "WRITE"] /\ ~ grants_all_scope files_ds_caps "filesAcl" a /\
    ~ grants_files_in_dataset files_ds_caps 5 a.
Proof.
  assert (H : Access.missing_files_capabilities files_ds_caps dataset_client (Some 5) =
    Ok [Access.files_item_ds 5 "WRITE";
        "datasetsAcl:READ (scope: 'all' OR 'id: " ++ pretty 5 ++ "')";
        "(If dataset is write protected, you'll also need OWNER)"]) by reflexivity.
  split; [exact H|].
  exact (missing_files_dataset_items files_ds_caps dataset_client 5 _ H).
Defined.

Lemma string_app_assoc (a b c : string) : (a ++ b) ++ c = a ++ (b ++ c).
Proof. induction a as [|x r IH]; [reflexivity|]. exact (f_equal (String x) IH). Qed.

Lemma string_app_nil_r (s : string) : s ++ "" = s.
Proof. induction s as [|x r IH]; [reflexivity|]. exact (f_equal (String x) IH). Qed.

Lemma prefixb_app (p s : string) : Str.prefixb p (p ++ s) = true.
Proof.
  induction p as [|c r IH]; simpl; [reflexivity|]. rewrite Ascii.eqb_refl. exact IH.
Qed.

Lemma contains_prefix (p s : string) : Str.prefixb p s = true -> Str.contains p s = true.
Proof. destruct s; cbn [Str.contains]; intros ->; reflexivity. Qed.

Lemma contains_app_l (p s : string) : Str.contains p (p ++ s) = true.
Proof. apply contains_prefix, prefixb_app. Qed.

Lemma contains_app_r (p a s : string) : Str.contains p s = true -> Str.contains p (a ++ s) = true.
Proof.
  intros H. induction a as [|c r IH]; simpl; [exact H|].
  cbn [Str.contains]. rewrite IH. apply orb_true_r.
Qed.

Lemma contains_cons (p : string) (c : ascii) (s : string) :
  Str.contains p s = true -> Str.contains p (String c s) = true.
Proof. intros H. cbn [Str.contains]. rewrite H. apply orb_true_r. Qed.

Lemma enumerate_items_nth (k i : nat) (items : list string) (x : string) :
  nth_error items i = Some x ->
  Str.contains ("- " ++ pretty (k + i)%nat ++ ": " ++ x) (Access.enumerate_items k items) = true.
Proof.
  revert k i. induction items as [|y rest IH]; intros k i H; [destruct i; discriminate|].
  destruct i as [|i]; cbn in H.
  - injection H as ->. rewrite Nat.add_0_r. destruct rest as [|z rest'].
    + cbn [Access.enumerate_items]. rewrite <- (string_app_nil_r ("- " ++ _)) at 2.
      apply contains_app_l.
    + cbn [Access.enumerate_items].
      replace ("- " ++ pretty k ++ ": " ++ x ++ String "010" (Access.enumerate_items (S k) (z :: rest')))
        with (("- " ++ pretty k ++ ": " ++ x) ++ String "010" (Access.enumerate_items (S k) (z :: rest')))
        by (rewrite !string_app_assoc; reflexivity).
      apply contains_app_l.
  - destruct rest as [|z rest']; [destruct i; discriminate|].
    cbn [Access.enumerate_items].
    apply contains_app_r, contains_app_r, contains_app_r, contains_app_r, contains_cons.
    replace (k + S i)%nat with (S k + i)%nat by lia. exact (IH (S k) i H).
Qed.

(** The message of [raise_on_missing] numbers the missing items from 1 in
    their order: the item at position [i] of the list appears in it as
    "- i+1: item". *)
Theorem missing_acl_message_numbers_items (cred : string) (missing : list string)
    (i : nat) (x : string) :
  nth_error missing i = Some x ->
  Str.contains ("- " ++ pretty (S i) ++ ": " ++ x) (Access.missing_acl_message cred missing) = true.
Proof.
  intros H. unfold Access.missing_acl_message.
  apply contains_app_r, contains_app_r, contains_cons.
  exact (enumerate_items_nth 1 i missing x H).
Qed.

Lemma missing_acl_message_numbers_items_witness :
  nth_error ["functionsAcl:READ (scope: 'all')"; Access.SESSION_ITEM] 1 = Some Access.SESSION_ITEM /\
  Str.contains ("- " ++ pretty 2%nat ++ ": " ++ Access.SESSION_ITEM)
    (Access.missing_acl_message "deploy" ["functionsAcl:READ (scope: 'all')"; Access.SESSION_ITEM]) = true.
Proof.
  assert (H : nth_error ["functionsAcl:READ (scope: 'all')"; Access.SESSION_ITEM] 1 =
              Some Access.SESSION_ITEM) by reflexivity.
  split; [exact H|].
  exact (missing_acl_message_numbers_items "deploy" _ 1 _ H).
Defined.

(* ------------------------------------------------------------------ *)
(** ** [function.await_function_deployment] *)

Lemma await_loop_outcomes (xid : string) (wait t0 : Z) (n : nat) :
  forall (f : Function) (s : St), fn_external_id f = xid ->
  remote (await_loop n xid wait t0 f s).2 = remote s /\
  forall g, (await_loop n xid wait t0 f s).1 = Ok g ->
    fn_status g = FunctionStatus.READY /\ fn_external_id g = xid.
Proof.
  induction n as [|n IH]; intros f s Hx; cbn [await_loop];
    unfold time_time, mbind, M_bind, logger, raise, mret, M_ret; cbn;
    (destruct (clock s <=? t0 + wait);
     [destruct (String.eqb_spec (fn_status f) FunctionStatus.READY) as [Hr|_];
      [cbn; split; [reflexivity|]; intros g [= <-]; split; assumption|];
      destruct (String.eqb (fn_status f) FunctionStatus.FAILED);
      [cbn; split; [reflexivity|]; intros g Hg; discriminate|]
     | cbn; split; [reflexivity|]; intros g Hg; discriminate]).
  - cbn. split; [reflexivity|]. intros g Hg; discriminate.
  - unfold time_sleep, function_update. cbn.
    match goal with |- context [await_loop n xid wait t0 ?f' ?s'] =>
      destruct (IH f' s') as [IH1 IH2]; [cbn; exact Hx|] end.
    split; [exact IH1|exact IH2].
Qed.

(** [await_function_deployment] never changes the remote state, and a
    function it returns has status "Ready" and the external id asked
    for; when no function has that external id it raises
    [FunctionDeployError] after the single retrieve call, without
    sleeping. *)
Theorem await_function_deployment_outcomes (xid : string) (wait : Z) (s : St) :
  remote (await_function_deployment xid wait s).2 = remote s /\
  (forall g, (await_function_deployment xid wait s).1 = Ok g ->
     fn_status g = FunctionStatus.READY /\ fn_external_id g = xid) /\
  (r_functions (remote s) !! xid = None ->
     exists msg, (await_function_deployment xid wait s).1 = Err (FunctionDeployError msg) /\
       calls (await_function_deployment xid wait s).2 = CRetrieveFn xid :: calls s /\
       clock (await_function_deployment xid wait s).2 = clock s).
Proof.
  unfold await_function_deployment, functions_retrieve, time_time, mbind, M_bind. cbn -[await_loop].
  destruct (r_functions (remote s) !! xid) as [id|] eqn:E; cbn -[await_loop].
  - match goal with |- context [await_loop ?n xid wait ?t0 ?f ?s'] =>
      destruct (await_loop_outcomes xid wait t0 n f s' eq_refl) as [H1 H2] end.
    split; [exact H1|]. split; [exact H2|]. intros; discriminate.
  - split; [reflexivity|]. split; [intros g Hg; discriminate|].
    intros _. eexists. split; [reflexivity|]. split; reflexivity.
Qed.

(* ------------------------------------------------------------------ *)
(** ** [cleanup.run_cleanup] *)

(** [run_cleanup] with an existing code file never raises and changes
    nothing but that file: with the flag off nothing is called; with it
    on the file of the function ([create_zipfile_name] of its external
    id) is deleted if the credentials may delete it and kept otherwise,
    the refusal being swallowed. *)
Theorem run_cleanup_effect (fn : Function) (flag : bool) (s : St) :
  is_Some (r_files (remote s) !! create_zipfile_name (fn_external_id fn)) ->
  exists s', run_cleanup fn flag s = (Ok tt, s') /\ clock s' = clock s /\
    remote s' =
      (if flag && negb (bool_decide (create_zipfile_name (fn_external_id fn) ∈
                                     r_file_delete_denied (remote s)))
       then with_files (delete (create_zipfile_name (fn_external_id fn)) (r_files (remote s)))
              (remote s)
       else remote s) /\
    calls s' = app (if flag then [CDeleteFile (create_zipfile_name (fn_external_id fn))] else [])
                   (calls s).
Proof.
  intros [m Hm]. unfold run_cleanup, _delete_code_file.
  destruct flag; cbn; [|eexists; split; [reflexivity|]; split; [reflexivity|split; reflexivity]].
  unfold mbind, M_bind, logger, try_except, files_delete. cbn.
  case_decide as Hd; cbn.
  - rewrite bool_decide_true by exact Hd. eexists. split; [reflexivity|]. auto.
  - rewrite bool_decide_false by exact Hd. rewrite Hm. cbn.
    eexists. split; [reflexivity|]. auto.
Qed.

Lemma run_cleanup_effect_witness :
  is_Some (r_files (remote sample_state) !! create_zipfile_name (fn_external_id sample_function)) /\
  exists s', run_cleanup sample_function true sample_state = (Ok tt, s') /\
    clock s' = clock sample_state /\
    remote s' =
      (if true && negb (bool_decide (create_zipfile_name (fn_external_id sample_function) ∈
                                     r_file_delete_denied (remote sample_state)))
       then with_files (delete (create_zipfile_name (fn_external_id sample_function))
                          (r_files (remote sample_state))) (remote sample_state)
       else remote sample_state) /\
    calls s' = app (if true then [CDeleteFile (create_zipfile_name (fn_external_id sample_function))]
                    else []) (calls sample_state).
Proof.
  assert (H : is_Some (r_files (remote sample_state) !!
                       create_zipfile_name (fn_external_id sample_function))).
  { eexists. reflexivity. }
  split; [exact H|]. exact (run_cleanup_effect sample_function true sample_state H).
Defined.

(* ------------------------------------------------------------------ *)
(** ** [configs.PipelineModel.from_envvars] *)

Lemma rstrip_idem (s : string) : Str.rstrip (Str.rstrip s) = Str.rstrip s.
Proof.
  induction s as [|c r IH]; [reflexivity|]. cbn [Str.rstrip].
  destruct (String.eqb (Str.rstrip r) "" && Str.is_space c) eqn:E; [reflexivity|].
  cbn [Str.rstrip]. rewrite IH, E. reflexivity.
Qed.

Lemma lstrip_head (s : string) :
  Str.lstrip s = "" \/ exists c r, Str.lstrip s = String c r /\ Str.is_space c = false.
Proof.
  induction s as [|c r IH]; [left; reflexivity|]. cbn [Str.lstrip].
  destruct (Str.is_space c) eqn:E; [exact IH|]. right. eauto.
Qed.

Lemma strip_idem (s : string) : Str.strip (Str.strip s) = Str.strip s.
Proof.
  unfold Str.strip. destruct (lstrip_head s) as [->|(c & r & -> & Hc)]; [reflexivity|].
  cbn [Str.rstrip]. rewrite Hc, andb_false_r. cbn [Str.lstrip]. rewrite Hc.
  cbn [Str.rstrip]. rewrite rstrip_idem, Hc, andb_false_r. reflexivity.
Qed.

(** [get_parameter] gives [None] exactly when the variable named by the
    prefix (none in Azure Pipelines, "INPUT_" in GitHub Actions) and the
    upper-cased key is unset or blank; otherwise it gives the stripped
    value, which is non-empty and has no surrounding whitespace left. *)
Theorem get_parameter_values (azure github : bool) (env : gmap string string)
    (key prefix : string) :
  let var := (if azure then "" else if github then "INPUT_" else prefix) ++ Str.upper key in
  match Configs.get_parameter azure github env key prefix with
  | None => forall raw, env !! var = Some raw -> Str.strip raw = ""
  | Some v => v <> "" /\ Str.strip v = v /\ exists raw, env !! var = Some raw /\ Str.strip raw = v
  end.
Proof.
  unfold Configs.get_parameter. cbv zeta.
  destruct (env !! _) as [raw|] eqn:E; cbn [default id].
  - destruct (String.eqb_spec (Str.strip raw) "") as [H|H].
    + intros raw' [= <-]. exact H.
    + split; [exact H|]. split; [apply strip_idem|]. eauto.
  - intros raw' [=].
Qed.

(** The dict [from_envvars] hands to [parse_obj] holds a pair [(k, v)]
    exactly when [k] is an expected parameter and [get_parameter] found
    [v] for it. *)
Theorem from_envvars_params_In (azure github : bool) (env : gmap string string)
    (expected : list string) (k v : string) :
  In (k, v) (Configs.from_envvars_params azure github env expected) <->
  In k expected /\ Configs.get_parameter azure github env k "" = Some v.
Proof.
  induction expected as [|k' rest IH]; cbn [Configs.from_envvars_params]; [cbn; tauto|].
  destruct (Configs.get_parameter azure github env k' "") as [v'|] eqn:E.
  - cbn [In]. rewrite IH. split.
    + intros [[= <- <-]|[H1 H2]]; [split; [left; reflexivity|exact E]|auto].
    + intros [[<-|H1] H2]; [left; congruence|right; auto].
  - rewrite IH. cbn [In]. split; [intros [H1 H2]; auto|].
    intros [[<-|H1] H2]; [congruence|auto].
Qed.

(* ------------------------------------------------------------------ *)
(** ** [configs.py]: the root validators *)

Lemma verify_oidc_params_ok (D S : string -> string) (ct : string) (v v' : Configs.CredValues)
    (w : list string) :
  Configs.verify_oidc_params D S ct v = (Ok v', w) ->
  v' = Configs.set_token_scopes (Some (default [S (Configs.cdf_cluster v)] (Configs.token_scopes v)))
         (Configs.set_token_url (match Configs.token_url v with
                                 | Some u => Some u
                                 | None => D <$> Configs.tenant_id v
                                 end) v).
Proof.
  destruct v as [p c ci cs [t|] [u|] [sc|] ds]; unfold Configs.verify_oidc_params; cbn;
    try (intros [= <- _]; reflexivity).
  - destruct (String.eqb ct "deployment"); cbn; [discriminate|]. intros [= <- _]. reflexivity.
  - destruct (String.eqb ct "deployment"); cbn; [discriminate|]. intros [= <- _]. reflexivity.
Qed.

Lemma verify_oidc_params_schedules (D S : string -> string) (v : Configs.CredValues) :
  exists v' w, Configs.verify_oidc_params D S "schedules" v = (Ok v', w).
Proof.
  destruct v as [p c ci cs [t|] [u|] [sc|] ds]; unfold Configs.verify_oidc_params; cbn; eauto.
Qed.

(** [DeployCredentials] validates only with a token URL (the one given,
    else the default one built from the tenant id) and token scopes (the
    ones given, else the default one of the cluster), and only when the
    deployment credentials pass [verify_deploy_capabilites] for the data
    set given. *)
Theorem deploy_credentials_validated (D S : string -> string)
    (client : Configs.CredValues -> Access.AccessClient) (v v' : Configs.CredValues)
    (w : list string) :
  Configs.DeployCredentials_validate D S client v = (Ok v', w) ->
  Configs.token_url v' = (match Configs.token_url v with
                          | Some u => Some u
                          | None => D <$> Configs.tenant_id v
                          end) /\
  Configs.token_url v' <> None /\
  Configs.token_scopes v' = Some (default [S (Configs.cdf_cluster v)] (Configs.token_scopes v)) /\
  Access.verify_deploy_capabilites (client v') (Configs.data_set_id v) "deploy" = Ok tt.
Proof.
  unfold Configs.DeployCredentials_validate.
  destruct (Configs.verify_oidc_params D S "deployment" v) as [[v1|e] w1] eqn:E; [|discriminate].
  destruct (Access.verify_deploy_capabilites (client v1) (Configs.data_set_id v1) "deploy")
    as [[]|e] eqn:C; [|discriminate].
  intros [= <- <-]. pose proof (verify_oidc_params_ok _ _ _ _ _ _ E) as ->.
  destruct v as [p c ci cs [t|] [u|] [sc|] ds]; cbn in *;
    repeat split; try discriminate; try exact C.
  all: unfold Configs.verify_oidc_params in E; cbn in E; discriminate.
Qed.

Lemma deploy_credentials_validated_witness :
  exists v' w,
  Configs.DeployCredentials_validate sample_token_url sample_token_scopes (fun _ => full_client)
    deploy_values = (Ok v', w) /\
  Configs.token_url v' = (match Configs.token_url deploy_values with
                          | Some u => Some u
                          | None => sample_token_url <$> Configs.tenant_id deploy_values
                          end) /\
  Configs.token_url v' <> None /\
  Configs.token_scopes v' = Some (default [sample_token_scopes (Configs.cdf_cluster deploy_values)]
                                    (Configs.token_scopes deploy_values)) /\
  Access.verify_deploy_capabilites full_client (Configs.data_set_id deploy_values) "deploy" = Ok tt.
Proof.
  do 2 eexists.
  assert (H : Configs.DeployCredentials_validate sample_token_url sample_token_scopes
                (fun _ => full_client) deploy_values = (Ok _, _)) by reflexivity.
  split; [exact H|].
  exact (deploy_credentials_validated sample_token_url sample_token_scopes (fun _ => full_client)
           deploy_values _ _ H).
Defined.

Lemma result_map_length {A B} (f : A -> result B) (l : list A) (ys : list B) :
  Schedules.result_map f l = Ok ys -> List.length ys = List.length l.
Proof.
  revert ys. induction l as [|a l IH]; intros ys H; [injection H as <-; reflexivity|].
  cbn in H. apply result_bind_ok in H as (b & _ & H).
  apply result_bind_ok in H as (bs & Hbs & H). injection H as <-. cbn. f_equal. exact (IH _ Hbs).
Qed.

Lemma truthy_py_iter (y : Schedules.yaml) (items : list Schedules.yaml) :
  Schedules.truthy y = true -> Schedules.py_iter y = Ok items -> items <> [].
Proof.
  destruct y as [| | |[|c r]|l|kvs]; cbn; try discriminate.
  - intros _ [= <-]. discriminate.
  - intros Hl [= <-]. intros ->. discriminate.
  - intros Hk [= <-]. destruct kvs; [discriminate|]. discriminate.
Qed.

(** [SchedulesConfig] validates to [schedules = []] with no schedule
    file, or keeps the schedule file with at least one parsed schedule;
    in the second case the schedules credentials have a client id, a
    client secret and a token URL and pass
    [verify_schedule_creds_capabilities]. *)
Theorem schedules_config_validated (D S : string -> string)
    (client : Configs.CredValues -> Access.AccessClient) (cron_ok : string -> bool)
    (fs : gmap string Schedules.yaml_doc) (v v' : Configs.SchedValues) (w : list string) :
  Configs.SchedulesConfig_validate D S client cron_ok fs v = (Ok v', w) ->
  Configs.function_folder v' = Configs.function_folder v /\
  ((Configs.schedule_file v' = None /\ Configs.schedules v' = Some []) \/
   (exists f scheds,
      Configs.schedule_file v = Some f /\ Configs.schedule_file v' = Some f /\
      Configs.schedules v' = Some scheds /\ scheds <> [] /\
      Configs.client_id (Configs.sc_creds v') <> None /\
      Configs.client_secret (Configs.sc_creds v') <> None /\
      Configs.token_url (Configs.sc_creds v') <> None /\
      Access.verify_schedule_creds_capabilities (client (Configs.sc_creds v')) "schedule" = Ok tt)).
Proof.
  unfold Configs.SchedulesConfig_validate.
  destruct (Configs.verify_oidc_params D S "schedules" (Configs.sc_creds v)) as [[c|e] w1];
    [|discriminate].
  destruct (Schedules.verify_schedule_file_and_parse cron_ok fs (Configs.function_folder v)
              (Configs.schedule_file v)) as [[[file scheds]|e] w2] eqn:P; [|discriminate].
  unfold Configs.verify_schedule_credentials. cbn [Configs.schedule_file Configs.sc_creds].
  destruct file as [f|].
  - destruct (bool_decide (Configs.client_secret c = None) || bool_decide (Configs.client_id c = None))
      eqn:B; [discriminate|].
    destruct (Configs.token_url c) as [u|] eqn:U; [|discriminate].
    destruct (Access.verify_schedule_creds_capabilities (client c) "schedule") as [[]|e] eqn:C;
      [|discriminate].
    intros [= <- _]. cbn. split; [reflexivity|]. right.
    apply orb_false_iff in B as [B1 B2].
    apply bool_decide_eq_false in B1, B2.
    unfold Schedules.verify_schedule_file_and_parse in P.
    destruct (Configs.schedule_file v) as [f'|]; [|discriminate].
    destruct (fs !! _) as [[why|y]|]; try discriminate.
    destruct (Schedules.truthy y) eqn:T; [|discriminate].
    injection P as P _.
    apply result_bind_ok in P as (items & Hi & P).
    apply result_bind_ok in P as (ys & Hy & P). injection P as <- <-.
    exists f', ys. split; [reflexivity|]. split; [reflexivity|]. split; [reflexivity|].
    split; [|split; [exact B2|split; [exact B1|split; [congruence|exact C]]]].
    intros ->. apply (truthy_py_iter y items T Hi).
    apply result_map_length in Hy. destruct items; [reflexivity|discriminate].
  - intros [= <- _]. cbn. split; [reflexivity|]. left. split; [reflexivity|].
    unfold Schedules.verify_schedule_file_and_parse in P.
    destruct (Configs.schedule_file v) as [f'|]; [|injection P as <-; reflexivity].
    destruct (fs !! _) as [[why|y]|]; try discriminate.
    + destruct (Schedules.truthy y); [|injection P as <-; reflexivity].
      injection P as P _.
      apply result_bind_ok in P as (items & Hi & P).
      apply result_bind_ok in P as (ys & Hy & P). discriminate.
    + injection P as <-. reflexivity.
Qed.

Lemma schedules_config_validated_witness :
  exists v' w,
  Configs.SchedulesConfig_validate sample_token_url sample_token_scopes (fun _ => full_client)
    (fun _ => true) schedule_fs (sched_values deploy_values (Some "schedules.yaml")) = (Ok v', w) /\
  Configs.function_folder v' = Configs.function_folder (sched_values deploy_values (Some "schedules.yaml")) /\
  ((Configs.schedule_file v' = None /\ Configs.schedules v' = Some []) \/
   (exists f scheds,
      Configs.schedule_file (sched_values deploy_values (Some "schedules.yaml")) = Some f /\
      Configs.schedule_file v' = Some f /\
      Configs.schedules v' = Some scheds /\ scheds <> [] /\
      Configs.client_id (Configs.sc_creds v') <> None /\
      Configs.client_secret (Configs.sc_creds v') <> None /\
      Configs.token_url (Configs.sc_creds v') <> None /\
      Access.verify_schedule_creds_capabilities full_client "schedule" = Ok tt)).
Proof.
  do 2 eexists.
  assert (H : Configs.SchedulesConfig_validate sample_token_url sample_token_scopes
                (fun _ => full_client) (fun _ => true) schedule_fs
                (sched_values deploy_values (Some "schedules.yaml")) = (Ok _, _)) by reflexivity.
  split; [exact H|].
  exact (schedules_config_validated sample_token_url sample_token_scopes (fun _ => full_client)
           (fun _ => true) schedule_fs _ _ _ H).
Defined.

(** Schedules credentials are needed only for a non-empty schedule file:
    with no schedule file given, a path that does not exist or a file that
    loads to an empty value, [SchedulesConfig] validates whatever the
    credentials (none at all included), to no schedule file and no
    schedules. *)
Theorem schedules_credentials_optional (D S : string -> string)
    (client : Configs.CredValues -> Access.AccessClient) (cron_ok : string -> bool)
    (fs : gmap string Schedules.yaml_doc) (v : Configs.SchedValues) :
  (Configs.schedule_file v = None \/
   exists f, Configs.schedule_file v = Some f /\
     (fs !! Schedules.path_join (Configs.function_folder v) f = None \/
      exists y, fs !! Schedules.path_join (Configs.function_folder v) f = Some (Schedules.Doc y) /\
                Schedules.truthy y = false)) ->
  exists c, (Configs.SchedulesConfig_validate D S client cron_ok fs v).1 =
    Ok {| Configs.sc_creds := c; Configs.schedule_file := None;
          Configs.function_folder := Configs.function_folder v; Configs.schedules := Some [] |}.
Proof.
  intros Hf. unfold Configs.SchedulesConfig_validate.
  destruct (verify_oidc_params_schedules D S (Configs.sc_creds v)) as (c & w & ->).
  exists c. unfold Schedules.verify_schedule_file_and_parse.
  destruct Hf as [->|(f & -> & [->|(y & -> & T)])]; cbn; [reflexivity|reflexivity|].
  rewrite T. reflexivity.
Qed.

Lemma schedules_credentials_optional_witness :
  (Configs.schedule_file (sched_values no_creds (Some "missing.yaml")) = None \/
   exists f, Configs.schedule_file (sched_values no_creds (Some "missing.yaml")) = Some f /\
     (schedule_fs !! Schedules.path_join
        (Configs.function_folder (sched_values no_creds (Some "missing.yaml"))) f = None \/
      exists y, schedule_fs !! Schedules.path_join
        (Configs.function_folder (sched_values no_creds (Some "missing.yaml"))) f =
        Some (Schedules.Doc y) /\ Schedules.truthy y = false)) /\
  exists c, (Configs.SchedulesConfig_validate sample_token_url sample_token_scopes
               (fun _ => partial_client) (fun _ => true) schedule_fs
               (sched_values no_creds (Some "missing.yaml"))).1 =
    Ok {| Configs.sc_creds := c; Configs.schedule_file := None;
          Configs.function_folder := Configs.function_folder (sched_values no_creds (Some "missing.yaml"));
          Configs.schedules := Some [] |}.
Proof.
  assert (H : Configs.schedule_file (sched_values no_creds (Some "missing.yaml")) = None \/
   exists f, Configs.schedule_file (sched_values no_creds (Some "missing.yaml")) = Some f /\
     (schedule_fs !! Schedules.path_join
        (Configs.function_folder (sched_values no_creds (Some "missing.yaml"))) f = None \/
      exists y, schedule_fs !! Schedules.path_join
        (Configs.function_folder (sched_values no_creds (Some "missing.yaml"))) f =
        Some (Schedules.Doc y) /\ Schedules.truthy y = false)).
  { right. exists "missing.yaml". split; [reflexivity|]. left. reflexivity. }
  split; [exact H|].
  exact (schedules_credentials_optional sample_token_url sample_token_scopes (fun _ => partial_client)
           (fun _ => true) schedule_fs _ H).
Defined.

(* ------------------------------------------------------------------ *)
(** ** [config.TenantConfig.check_credentials] *)

Lemma verify_credentials_ok (login : string -> string -> Config.LoginStatus) (env : string)
    (v : Config.TenantValues) (p : string) :
  Config._verify_credentials login env v = Ok p ->
  let st := login (Config.credentials_of env v) (Config.cdf_base_url v) in
  Config.logged_in st = true /\ Config.login_project st = p /\
  (forall g, Config.cdf_project v = Some g -> g = p).
Proof.
  unfold Config._verify_credentials. cbv zeta.
  destruct (Config.logged_in _) eqn:L; cbn; [|discriminate].
  destruct (Config.cdf_project v) as [g|].
  - destruct (String.eqb_spec (Config.login_project (login (Config.credentials_of env v)
                                   (Config.cdf_base_url v))) g) as [E|E]; cbn; [|discriminate].
    intros [= <-]. split; [reflexivity|]. split; [reflexivity|]. intros g' [= <-]. symmetry; exact E.
  - intros [= <-]. split; [reflexivity|]. split; [reflexivity|]. intros g' [=].
Qed.

(** [TenantConfig] validates only when both API keys log in, to the same
    project, which is the project given if one was; the validated values
    carry that project and keep the keys and base URL. *)
Theorem check_credentials_same_project (login : string -> string -> Config.LoginStatus)
    (v v' : Config.TenantValues) :
  Config.check_credentials login v = Ok v' ->
  exists p,
    Config.cdf_project v' = Some p /\
    Config.logged_in (login (Config.cdf_deployment_credentials v) (Config.cdf_base_url v)) = true /\
    Config.logged_in (login (Config.cdf_runtime_credentials v) (Config.cdf_base_url v)) = true /\
    Config.login_project (login (Config.cdf_deployment_credentials v) (Config.cdf_base_url v)) = p /\
    Config.login_project (login (Config.cdf_runtime_credentials v) (Config.cdf_base_url v)) = p /\
    (forall g, Config.cdf_project v = Some g -> g = p) /\
    Config.cdf_deployment_credentials v' = Config.cdf_deployment_credentials v /\
    Config.cdf_runtime_credentials v' = Config.cdf_runtime_credentials v /\
    Config.cdf_base_url v' = Config.cdf_base_url v.
Proof.
  unfold Config.check_credentials.
  destruct (Config._verify_credentials login "deployment" v) as [d|e] eqn:Ed; [|discriminate].
  destruct (Config._verify_credentials login "runtime" v) as [r|e] eqn:Er; [|discriminate].
  destruct (String.eqb_spec d r) as [<-|_]; cbn; [|discriminate].
  intros [= <-]. exists d.
  destruct (verify_credentials_ok _ _ _ _ Ed) as (L1 & P1 & G1).
  destruct (verify_credentials_ok _ _ _ _ Er) as (L2 & P2 & G2).
  unfold Config.credentials_of in *. cbn in *.
  repeat (split; [assumption || reflexivity|]). repeat split; reflexivity.
Qed.

Lemma check_credentials_same_project_witness :
  exists v',
  Config.check_credentials (fun _ _ => {| Config.logged_in := true; Config.login_project := "proj" |})
    tenant_values = Ok v' /\
  exists p,
    Config.cdf_project v' = Some p /\
    Config.logged_in {| Config.logged_in := true; Config.login_project := "proj" |} = true /\
    Config.logged_in {| Config.logged_in := true; Config.login_project := "proj" |} = true /\
    Config.login_project {| Config.logged_in := true; Config.login_project := "proj" |} = p /\
    Config.login_project {| Config.logged_in := true; Config.login_project := "proj" |} = p /\
    (forall g, Config.cdf_project tenant_values = Some g -> g = p) /\
    Config.cdf_deployment_credentials v' = Config.cdf_deployment_credentials tenant_values /\
    Config.cdf_runtime_credentials v' = Config.cdf_runtime_credentials tenant_values /\
    Config.cdf_base_url v' = Config.cdf_base_url tenant_values.
Proof.
  eexists.
  assert (H : Config.check_credentials
                (fun _ _ => {| Config.logged_in := true; Config.login_project := "proj" |})
                tenant_values = Ok _) by reflexivity.
  split; [exact H|].
  exact (check_credentials_same_project
           (fun _ _ => {| Config.logged_in := true; Config.login_project := "proj" |})
           tenant_values _ H).
Defined.

(* ------------------------------------------------------------------ *)
(** ** [checks._check_handle_args] *)

(** The argument lists of the [def handle] the visitor reaches, in
    order. *)
Definition handles (defs : list (string * list string)) : list (list string) :=
  map snd (List.filter (fun d => String.eqb d.1 "handle") defs).

Definition handle_arg_ok (a : string) : bool := existsb (String.eqb a) Checks.HANDLE_ARGS.

(** How [visit_FunctionDef] moves [handle_found] along the [handle]s it
    meets; [None] is a raised [FunctionValidationError]. *)
Fixpoint hfold (found : bool) (hs : list (list string)) : option bool :=
  match hs with
  | [] => Some found
  | args :: rest => if found then None else if forallb handle_arg_ok args then hfold true rest else None
  end.

Lemma hfold_app (b : bool) (l1 l2 : list (list string)) :
  hfold b (app l1 l2) = match hfold b l1 with Some b' => hfold b' l2 | None => None end.
Proof.
  revert b. induction l1 as [|a r IH]; intros b; [reflexivity|]. cbn.
  destruct b; [reflexivity|]. destruct (forallb handle_arg_ok a); [apply IH|reflexivity].
Qed.

Lemma handles_app (l1 l2 : list (string * list string)) :
  handles (app l1 l2) = app (handles l1) (handles l2).
Proof. unfold handles. rewrite List.filter_app, map_app. reflexivity. Qed.

Lemma filter_bad_args_nil (args : list string) :
  List.filter (fun a => negb (existsb (String.eqb a) Checks.HANDLE_ARGS)) args = [] <->
  forallb handle_arg_ok args = true.
Proof.
  induction args as [|a r IH]; [split; reflexivity|]. cbn [List.filter forallb].
  unfold handle_arg_ok at 1. destruct (existsb (String.eqb a) Checks.HANDLE_ARGS); cbn;
    [exact IH|split; discriminate].
Qed.

Definition visit_agrees (v : Checks.Visitor) (o : Checks.outcome Checks.Visitor)
    (defs : list (string * list string)) : Prop :=
  match o with
  | Checks.Fine v' => hfold (Checks.handle_found v) (handles defs) = Some (Checks.handle_found v')
  | Checks.FunctionValidationError _ => hfold (Checks.handle_found v) (handles defs) = None
  end.

Lemma visit_hfold : forall (s : Checks.stmt) (v : Checks.Visitor),
  visit_agrees v (Checks.visit v s) (Checks.visited_defs s).
Proof.
  fix IH 1. intros s v. destruct s as [name args body|name args body|name body|body|].
  - cbn [Checks.visit Checks.visited_defs]. unfold Checks.visit_FunctionDef, visit_agrees, handles.
    cbn. destruct (String.eqb_spec name "handle") as [->|Hn]; cbn; [|reflexivity].
    destruct (Checks.handle_found v); [reflexivity|].
    destruct (List.filter _ args) eqn:Hb.
    + apply filter_bad_args_nil in Hb. rewrite Hb. reflexivity.
    + cbn. destruct (forallb handle_arg_ok args) eqn:Hf; [|reflexivity].
      pose proof (proj2 (filter_bad_args_nil args) Hf) as Z. cbn in Z. congruence.
  - cbn [Checks.visited_defs]. revert v; induction body as [|x rest IHb]; intros v;
      [unfold visit_agrees; reflexivity|].
    cbn [flat_map]. unfold visit_agrees in *. cbn [Checks.visit].
    specialize (IH x v). destruct (Checks.visit v x) as [v1|m] eqn:E;
      rewrite handles_app, hfold_app, IH; [apply IHb|reflexivity].
  - cbn [Checks.visited_defs]. revert v; induction body as [|x rest IHb]; intros v;
      [unfold visit_agrees; reflexivity|].
    cbn [flat_map]. unfold visit_agrees in *. cbn [Checks.visit].
    specialize (IH x v). destruct (Checks.visit v x) as [v1|m] eqn:E;
      rewrite handles_app, hfold_app, IH; [apply IHb|reflexivity].
  - cbn [Checks.visited_defs]. revert v; induction body as [|x rest IHb]; intros v;
      [unfold visit_agrees; reflexivity|].
    cbn [flat_map]. unfold visit_agrees in *. cbn [Checks.visit].
    specialize (IH x v). destruct (Checks.visit v x) as [v1|m] eqn:E;
      rewrite handles_app, hfold_app, IH; [apply IHb|reflexivity].
  - unfold visit_agrees. reflexivity.
Qed.

Lemma hfold_false_true (hs : list (list string)) :
  hfold false hs = Some true <-> exists args, hs = [args] /\ forallb handle_arg_ok args = true.
Proof.
  split.
  - destruct hs as [|a [|b r]]; cbn; [discriminate| |].
    + destruct (forallb handle_arg_ok a) eqn:E; [|discriminate]. eauto.
    + destruct (forallb handle_arg_ok a); discriminate.
  - intros (args & -> & H). cbn. rewrite H. reflexivity.
Qed.

(** [_check_handle_args] accepts a parsed file exactly when the visitor
    reaches one and only one [def handle] (a [def] nested in another
    [def] is not reached; one in a class, an [async def] or any other
    block is) and all its positional arguments are among
    [HANDLE_ARGS]. *)
Theorem check_handle_args_accepts (file_path : string) (body : list Checks.stmt) :
  Checks._check_handle_args file_path body = Checks.Fine tt <->
  exists args, handles (Checks.visited_defs (Checks.Compound body)) = [args] /\
    Forall (fun a => In a Checks.HANDLE_ARGS) args.
Proof.
  unfold Checks._check_handle_args.
  pose proof (visit_hfold (Checks.Compound body)
                {| Checks.file_path := file_path; Checks.handle_found := false; Checks.fn_names := [] |})
    as H.
  unfold visit_agrees in H. cbn [Checks.handle_found] in H.
  destruct (Checks.visit _ (Checks.Compound body)) as [v'|m].
  - destruct (Checks.handle_found v') eqn:F; cbn [negb].
    + split; [intros _|reflexivity]. apply hfold_false_true in H as (args & Ha & Hf).
      exists args. split; [exact Ha|]. apply List.Forall_forall. intros a Hin.
      rewrite forallb_forall in Hf. specialize (Hf a Hin). unfold handle_arg_ok in Hf.
      apply existsb_exists in Hf as (b & Hb & Hab). apply String.eqb_eq in Hab. subst. exact Hb.
    + split; [discriminate|]. intros (args & Ha & _). rewrite Ha in H. cbn in H.
      destruct (forallb handle_arg_ok args); discriminate.
  - split; [discriminate|]. intros (args & Ha & Hf). rewrite Ha in H. cbn in H.
    assert (Hok : forallb handle_arg_ok args = true).
    { apply forallb_forall. intros a Hin. rewrite List.Forall_forall in Hf.
      apply existsb_exists. exists a. split; [exact (Hf a Hin)|apply String.eqb_refl]. }
    rewrite Hok in H. discriminate.
Qed.
